(** * The interaction history of the study assistant

    The component [App] keeps a list of past analyses in a React state
    variable and mirrors it, as JSON text, under one key of the browser's
    localStorage.  This file embeds that code: the JSON text format, the
    types of the persisted items, the component state and its handlers as
    computations over an explicit world, and then states and proves what
    the handlers do to the history. *)

From Stdlib Require Import ZArith String Ascii DecimalString DecimalN.
From stdpp Require Import gmap strings list.

Set Warnings "-register-all".

(** * JSON text: [JSON.stringify] and [JSON.parse]

    Strings are byte strings holding UTF-8.  A number is kept exactly, as
    mantissa * 10^exp10; the readings of Date.now(), integers of at most
    sixteen digits, are numbers that JavaScript carries exactly too. *)

Module JSON.

(** The values of JSON text; the members of an object in the order of the
    text. *)
Inductive json : Type :=
  | JNull
  | JBool (b : bool)
  | JNum (mantissa : Z) (exp10 : Z)
  | JStr (s : string)
  | JArr (elements : list json)
  | JObj (members : list (string * json)).

Definition dquote : ascii := "034"%char.
Definition backslash : ascii := "092"%char.

(** ** Serialisation ([JSON.stringify]) *)

Definition N_toString (n : N) : string := NilEmpty.string_of_uint (N.to_uint n).

Definition Z_toString (z : Z) : string :=
  if (z <? 0)%Z then String "-" (N_toString (Z.abs_N z)) else N_toString (Z.abs_N z).

Definition hex_digit (n : N) : ascii :=
  ascii_of_N (if (n <? 10)%N then 48 + n else 87 + n).

(** The quotation mark, the backslash and the control characters are
    escaped; every other byte is written as it is. *)
Definition escape_char (c : ascii) : string :=
  let n := N_of_ascii c in
  if (n =? 34)%N then String backslash (String dquote "")
  else if (n =? 92)%N then String backslash (String backslash "")
  else if (n =? 8)%N then String backslash "b"
  else if (n =? 12)%N then String backslash "f"
  else if (n =? 10)%N then String backslash "n"
  else if (n =? 13)%N then String backslash "r"
  else if (n =? 9)%N then String backslash "t"
  else if (n <? 32)%N then
    String backslash ("u00" +:+ String (hex_digit (n / 16)) (String (hex_digit (n mod 16)) ""))
  else String c "".

Fixpoint escape (s : string) : string :=
  match s with
  | EmptyString => ""
  | String c s' => escape_char c +:+ escape s'
  end.

Definition quote (s : string) : string := String dquote (escape s +:+ String dquote "").

(** An integer is written in plain decimal digits.  The component writes
    no other number; one is written here with its exponent. *)
Definition number_toString (m e : Z) : string :=
  if (e =? 0)%Z then Z_toString m else Z_toString m +:+ String "e" (Z_toString e).

Fixpoint join (sep : string) (l : list string) : string :=
  match l with
  | [] => ""
  | [x] => x
  | x :: l' => x +:+ sep +:+ join sep l'
  end.

Fixpoint stringify (j : json) : string :=
  match j with
  | JNull => "null"
  | JBool true => "true"
  | JBool false => "false"
  | JNum m e => number_toString m e
  | JStr s => quote s
  | JArr l => String "[" (join "," (map stringify l) +:+ "]")
  | JObj kvs =>
      String "{" (join "," (map (λ kv, quote kv.1 +:+ String ":" (stringify kv.2)) kvs) +:+ "}")
  end.

(** ** Parsing ([JSON.parse]) *)

Definition is_ws (c : ascii) : bool :=
  let n := N_of_ascii c in
  ((n =? 32) || (n =? 9) || (n =? 10) || (n =? 13))%N.

Fixpoint skip_ws (s : string) : string :=
  match s with
  | String c s' => if is_ws c then skip_ws s' else s
  | EmptyString => s
  end.

Fixpoint strip_prefix (p s : string) : option string :=
  match p, s with
  | EmptyString, _ => Some s
  | String a p', String b s' => if Ascii.eqb a b then strip_prefix p' s' else None
  | String _ _, EmptyString => None
  end.

(** The text after the character [c], when [s] begins with it. *)
Definition starts_with (c : ascii) (s : string) : option string :=
  match s with
  | String a r => if Ascii.eqb a c then Some r else None
  | EmptyString => None
  end.

Definition digit_cons (c : ascii) : option (Decimal.uint → Decimal.uint) :=
  match N_of_ascii c with
  | 48%N => Some Decimal.D0 | 49%N => Some Decimal.D1 | 50%N => Some Decimal.D2
  | 51%N => Some Decimal.D3 | 52%N => Some Decimal.D4 | 53%N => Some Decimal.D5
  | 54%N => Some Decimal.D6 | 55%N => Some Decimal.D7 | 56%N => Some Decimal.D8
  | 57%N => Some Decimal.D9
  | _ => None
  end.

(** The longest prefix of decimal digits and what follows it. *)
Fixpoint read_digits (s : string) : Decimal.uint * string :=
  match s with
  | EmptyString => (Decimal.Nil, s)
  | String c s' =>
      match digit_cons c with
      | Some d => let '(u, r) := read_digits s' in (d u, r)
      | None => (Decimal.Nil, s)
      end
  end.

Fixpoint uint_length (u : Decimal.uint) : nat :=
  match u with
  | Decimal.Nil => 0
  | Decimal.D0 u | Decimal.D1 u | Decimal.D2 u | Decimal.D3 u | Decimal.D4 u
  | Decimal.D5 u | Decimal.D6 u | Decimal.D7 u | Decimal.D8 u | Decimal.D9 u =>
      S (uint_length u)
  end.

(** int = zero / ( digit1-9 *DIGIT ) *)
Definition read_int (s : string) : option (N * string) :=
  match read_digits s with
  | (Decimal.Nil, _) => None
  | (Decimal.D0 Decimal.Nil, r) => Some (0%N, r)
  | (Decimal.D0 _, _) => None
  | (u, r) => Some (N.of_uint u, r)
  end.

(** frac = decimal-point 1*DIGIT; the result is the digits' value and count. *)
Definition read_frac (s : string) : option (N * nat * string) :=
  match starts_with "." s with
  | Some s' =>
      match read_digits s' with
      | (Decimal.Nil, _) => None
      | (u, r) => Some (N.of_uint u, uint_length u, r)
      end
  | None => Some (0%N, 0, s)
  end.

(** exp = e [ minus / plus ] 1*DIGIT *)
Definition read_exp (s : string) : option (Z * string) :=
  let digits (neg : bool) (s' : string) :=
    match read_digits s' with
    | (Decimal.Nil, _) => None
    | (u, r) => Some (if neg then (- Z.of_N (N.of_uint u))%Z else Z.of_N (N.of_uint u), r)
    end in
  let signed (s' : string) :=
    match starts_with "-" s', starts_with "+" s' with
    | Some s'', _ => digits true s''
    | None, Some s'' => digits false s''
    | None, None => digits false s'
    end in
  match starts_with "e" s, starts_with "E" s with
  | Some s', _ | None, Some s' => signed s'
  | None, None => Some (0%Z, s)
  end.

(** number = [ minus ] int [ frac ] [ exp ], read as mantissa * 10^exp10. *)
Definition read_number (s : string) : option (json * string) :=
  let '(neg, s0) :=
    match starts_with "-" s with Some s' => (true, s') | None => (false, s) end in
  '(ip, s1) ← read_int s0;
  '(fp, k, s2) ← read_frac s1;
  '(e, s3) ← read_exp s2;
  let m := (Z.of_N ip * 10 ^ Z.of_nat k + Z.of_N fp)%Z in
  Some (JNum (if neg then - m else m)%Z (e - Z.of_nat k)%Z, s3).

Definition hex_value (c : ascii) : option N :=
  let n := N_of_ascii c in
  if ((48 <=? n) && (n <=? 57))%N then Some (n - 48)%N
  else if ((97 <=? n) && (n <=? 102))%N then Some (n - 87)%N
  else if ((65 <=? n) && (n <=? 70))%N then Some (n - 55)%N
  else None.

Definition hex4 (a b c d : ascii) : option N :=
  x3 ← hex_value a; x2 ← hex_value b; x1 ← hex_value c; x0 ← hex_value d;
  Some (((x3 * 16 + x2) * 16 + x1) * 16 + x0)%N.

Definition byte (n : N) : ascii := ascii_of_N n.

(** UTF-8 encoding of a code point below 0x110000; an escaped surrogate
    that comes without its pair is kept in the same way, as three bytes. *)
Definition utf8 (cp : N) : string :=
  if (cp <? 128)%N then String (byte cp) ""
  else if (cp <? 2048)%N then
    String (byte (192 + cp / 64)) (String (byte (128 + cp mod 64)) "")
  else if (cp <? 65536)%N then
    String (byte (224 + cp / 4096))
      (String (byte (128 + (cp / 64) mod 64)) (String (byte (128 + cp mod 64)) ""))
  else
    String (byte (240 + cp / 262144))
      (String (byte (128 + (cp / 4096) mod 64))
         (String (byte (128 + (cp / 64) mod 64)) (String (byte (128 + cp mod 64)) ""))).

Definition unescape (c : ascii) : option ascii :=
  match N_of_ascii c with
  | 34%N => Some dquote
  | 92%N => Some backslash
  | 47%N => Some "/"%char
  | 98%N => Some (byte 8)
  | 102%N => Some (byte 12)
  | 110%N => Some (byte 10)
  | 114%N => Some (byte 13)
  | 116%N => Some (byte 9)
  | _ => None
  end.

(** A low surrogate escape at the head of [s], if there is one. *)
Definition low_surrogate (s : string) : option N :=
  match s with
  | String b (String u (String h1 (String h2 (String h3 (String h4 _))))) =>
      if Ascii.eqb b backslash && Ascii.eqb u "u" then
        lo ← hex4 h1 h2 h3 h4;
        if ((56320 <=? lo) && (lo <=? 57343))%N then Some lo else None
      else None
  | _ => None
  end.

(** The characters of a string literal after its opening quotation mark, up
    to the closing one, and the text after it. *)
Fixpoint read_chars (s : string) : option (string * string) :=
  match s with
  | EmptyString => None
  | String c s1 =>
      if Ascii.eqb c dquote then Some ("", s1)
      else if Ascii.eqb c backslash then
        match s1 with
        | EmptyString => None
        | String e s2 =>
            if Ascii.eqb e "u" then
              match s2 with
              | String h1 (String h2 (String h3 (String h4 s3))) =>
                  hi ← hex4 h1 h2 h3 h4;
                  match (if ((55296 <=? hi) && (hi <=? 56319))%N
                         then low_surrogate s3 else None), s3 with
                  | Some lo, String _ (String _ (String _ (String _ (String _ (String _ s4))))) =>
                      '(body, r) ← read_chars s4;
                      Some (utf8 (65536 + (hi - 55296) * 1024 + (lo - 56320)) +:+ body, r)
                  | _, _ =>
                      '(body, r) ← read_chars s3;
                      Some (utf8 hi +:+ body, r)
                  end
              | _ => None
              end
            else
              c' ← unescape e;
              '(body, r) ← read_chars s2;
              Some (String c' body, r)
        end
      else if (N_of_ascii c <? 32)%N then None
      else
        '(body, r) ← read_chars s1;
        Some (String c body, r)
  end.

(** The characters a number can begin with: a minus sign or a digit. *)
Definition num_start (c : ascii) : bool :=
  let n := N_of_ascii c in
  ((n =? 45) || ((48 <=? n) && (n <=? 57)))%N.

Fixpoint parse_value (fuel : nat) (s : string) : option (json * string) :=
  match fuel with
  | O => None
  | S fuel' =>
      match s with
      | EmptyString => None
      | String c s' =>
          if num_start c then read_number s
          else if Ascii.eqb c dquote then
            '(str, r) ← read_chars s'; Some (JStr str, r)
          else if Ascii.eqb c "[" then
            match starts_with "]" (skip_ws s') with
            | Some r => Some (JArr [], r)
            | None => '(l, r) ← parse_elements fuel' (skip_ws s'); Some (JArr l, r)
            end
          else if Ascii.eqb c "{" then
            match starts_with "}" (skip_ws s') with
            | Some r => Some (JObj [], r)
            | None => '(kvs, r) ← parse_members fuel' (skip_ws s'); Some (JObj kvs, r)
            end
          else if Ascii.eqb c "n" then r ← strip_prefix "ull" s'; Some (JNull, r)
          else if Ascii.eqb c "t" then r ← strip_prefix "rue" s'; Some (JBool true, r)
          else if Ascii.eqb c "f" then r ← strip_prefix "alse" s'; Some (JBool false, r)
          else None
      end
  end
with parse_elements (fuel : nat) (s : string) : option (list json * string) :=
  match fuel with
  | O => None
  | S fuel' =>
      '(v, r) ← parse_value fuel' s;
      match starts_with "," (skip_ws r) with
      | Some r' => '(vs, r'') ← parse_elements fuel' (skip_ws r'); Some (v :: vs, r'')
      | None => r' ← starts_with "]" (skip_ws r); Some ([v], r')
      end
  end
with parse_members (fuel : nat) (s : string) : option (list (string * json) * string) :=
  match fuel with
  | O => None
  | S fuel' =>
      s' ← starts_with dquote s;
      '(k, r0) ← read_chars s';
      r1 ← starts_with ":" (skip_ws r0);
      '(v, r) ← parse_value fuel' (skip_ws r1);
      match starts_with "," (skip_ws r) with
      | Some r' =>
          '(kvs, r'') ← parse_members fuel' (skip_ws r'); Some ((k, v) :: kvs, r'')
      | None => r' ← starts_with "}" (skip_ws r); Some ([(k, v)], r')
      end
  end.

(** [JSON.parse]: [None] stands for the SyntaxError it throws. *)
Definition parse (s : string) : option json :=
  '(j, r) ← parse_value (S (String.length s)) (skip_ws s);
  match skip_ws r with
  | EmptyString => Some j
  | _ => None
  end.

(** ** Notions for the facts about the format *)

(** A text that does not go on with a digit. *)
Definition no_digit_head (s : string) : Prop :=
  match s with
  | String c _ => digit_cons c = None
  | EmptyString => True
  end.

(** A text before which a number literal ends. *)
Definition number_end (s : string) : Prop :=
  match s with
  | String c _ =>
      digit_cons c = None ∧ Ascii.eqb c "." = false
      ∧ Ascii.eqb c "e" = false ∧ Ascii.eqb c "E" = false
  | EmptyString => True
  end.

(** One member of a serialised object. *)
Definition member (kv : string * json) : string :=
  quote kv.1 +:+ String ":" (stringify kv.2).

(** What the parser, given the fuel [f], makes of a serialised value, of the
    elements of an array and of the members of an object. *)
Definition value_ok (f : nat) : Prop :=
  ∀ j rest, String.length (stringify j) ≤ f → number_end rest →
    parse_value f (stringify j +:+ rest) = Some (j, rest).

Definition elements_ok (f : nat) : Prop :=
  ∀ l rest, l ≠ [] → String.length (join "," (map stringify l)) < f →
    parse_elements f (join "," (map stringify l) +:+ String "]" rest)
    = Some (l, rest).

Definition members_ok (f : nat) : Prop :=
  ∀ kvs rest, kvs ≠ [] → String.length (join "," (map member kvs)) < f →
    parse_members f (join "," (map member kvs) +:+ String "}" rest)
    = Some (kvs, rest).

End JSON.

(** * The types of [./types]

    The file that declares them is not part of the sources at hand; the
    component only constructs and reads them. *)

(** Modelled from the spec: the declaration of [AnalysisResult] is missing;
    the data model gives one section of an explanation as a title and a
    content. *)
Module ExplanationSection.
Record t : Type := mk { title : string; content : string }.
End ExplanationSection.

(** Modelled from the spec: the declaration of [AnalysisResult] is missing;
    the data model gives explanation as a string OR an ordered sequence of
    titled sections. *)
Inductive Explanation : Type :=
  | Plain (text : string)
  | Sectioned (sections : list ExplanationSection.t).

(** Modelled from the spec: the declaration of [AnalysisResult] is missing;
    its fields are summary, keywords, explanation and examples. *)
Module AnalysisResult.
Record t : Type := mk {
  summary : string;
  keywords : list string;
  explanation : Explanation;
  examples : list string
}.
End AnalysisResult.

(** The object built by [reader.onload]: data, mimeType, name. *)
Module UploadedFile.
Record t : Type := mk { data : string; mimeType : string; name : string }.
End UploadedFile.

(** The object literal of [saveToHistory]; [fileName] is [None] when the
    property is undefined. *)
Module HistoryItem.
Record t : Type := mk {
  id : string;
  timestamp : Z;
  prompt : string;
  fileName : option string;
  result : AnalysisResult.t
}.
End HistoryItem.

#[global] Instance ExplanationSection_eq_dec : EqDecision ExplanationSection.t.
Proof. solve_decision. Defined.
#[global] Instance Explanation_eq_dec : EqDecision Explanation.
Proof. solve_decision. Defined.
#[global] Instance AnalysisResult_eq_dec : EqDecision AnalysisResult.t.
Proof. solve_decision. Defined.
#[global] Instance UploadedFile_eq_dec : EqDecision UploadedFile.t.
Proof. solve_decision. Defined.
#[global] Instance HistoryItem_eq_dec : EqDecision HistoryItem.t.
Proof. solve_decision. Defined.

(** * The persisted layout: a HistoryItem[] as a JSON value *)

Module Codec.
Import JSON.

Definition encode_section (s : ExplanationSection.t) : json :=
  JObj [("title", JStr (ExplanationSection.title s));
        ("content", JStr (ExplanationSection.content s))].

Definition encode_explanation (e : Explanation) : json :=
  match e with
  | Plain text => JStr text
  | Sectioned l => JArr (map encode_section l)
  end.

Definition encode_result (r : AnalysisResult.t) : json :=
  JObj [("summary", JStr (AnalysisResult.summary r));
        ("keywords", JArr (map JStr (AnalysisResult.keywords r)));
        ("explanation", encode_explanation (AnalysisResult.explanation r));
        ("examples", JArr (map JStr (AnalysisResult.examples r)))].

(** Properties are written in creation order; one whose value is
    undefined is left out by [JSON.stringify]. *)
Definition encode_item (it : HistoryItem.t) : json :=
  JObj ([("id", JStr (HistoryItem.id it));
         ("timestamp", JNum (HistoryItem.timestamp it) 0);
         ("prompt", JStr (HistoryItem.prompt it))]
        ++ match HistoryItem.fileName it with
           | Some f => [("fileName", JStr f)]
           | None => []
           end
        ++ [("result", encode_result (HistoryItem.result it))]).

Definition encode_history (h : list HistoryItem.t) : json :=
  JArr (map encode_item h).

Definition as_string (j : json) : option string :=
  match j with JStr s => Some s | _ => None end.

Definition decode_section (j : json) : option ExplanationSection.t :=
  match j with
  | JObj [(k1, JStr t); (k2, JStr c)] =>
      if decide (k1 = "title" ∧ k2 = "content")
      then Some (ExplanationSection.mk t c) else None
  | _ => None
  end.

Definition decode_explanation (j : json) : option Explanation :=
  match j with
  | JStr text => Some (Plain text)
  | JArr l => Sectioned <$> mapM decode_section l
  | _ => None
  end.

Definition decode_result (j : json) : option AnalysisResult.t :=
  match j with
  | JObj [(k1, JStr s); (k2, JArr kw); (k3, ex); (k4, JArr xs)] =>
      if decide (k1 = "summary" ∧ k2 = "keywords"
                 ∧ k3 = "explanation" ∧ k4 = "examples")
      then
        kw' ← mapM as_string kw;
        ex' ← decode_explanation ex;
        xs' ← mapM as_string xs;
        Some (AnalysisResult.mk s kw' ex' xs')
      else None
  | _ => None
  end.

(** A value is read back as a HistoryItem only when it has exactly the
    layout [encode_item] writes. *)
Definition decode_item (j : json) : option HistoryItem.t :=
  match j with
  | JObj ((k1, JStr i) :: (k2, JNum t 0) :: (k3, JStr p) :: rest) =>
      if decide (k1 = "id" ∧ k2 = "timestamp" ∧ k3 = "prompt") then
        match rest with
        | [(k4, r)] =>
            if decide (k4 = "result")
            then HistoryItem.mk i t p None <$> decode_result r else None
        | [(k4, JStr f); (k5, r)] =>
            if decide (k4 = "fileName" ∧ k5 = "result")
            then HistoryItem.mk i t p (Some f) <$> decode_result r else None
        | _ => None
        end
      else None
  | _ => None
  end.

Definition decode_history (j : json) : option (list HistoryItem.t) :=
  match j with
  | JArr l => mapM decode_item l
  | _ => None
  end.
End Codec.

(** * The component [App] and the browser it runs in *)

Module App.

Inductive Tab : Type := study | history_tab.

(** The values held by the [useState] hooks. *)
Record State : Type := mkState {
  activeTab : Tab;
  file : option UploadedFile.t;
  prompt : string;
  result : option AnalysisResult.t;
  loading : bool;
  error : option string;
  history : list HistoryItem.t
}.

(** The initial value of every hook. *)
Definition initialState : State :=
  {| activeTab := study; file := None; prompt := ""; result := None;
     loading := false; error := None; history := [] |}.

(** [localStorage]: the entries, and whether the browser takes a write of
    a value under a key (it raises a quota error when it does not). *)
Record Storage : Type := mkStorage {
  items : gmap string string;
  accepts : string → string → bool
}.

(** What the component asks of [analyzeContent]. *)
Record Request : Type := mkRequest {
  payload : option string;
  mediaType : option string;
  instruction : string
}.

Inductive Exn : Type :=
  | SyntaxError
  | QuotaExceededError
  | AnalysisFailure.

Inductive LogEntry : Type :=
  | LogMessage (msg : string) (e : Exn)
  | LogValue (e : Exn).

Record World : Type := mkWorld {
  app : State;
  localStorage : Storage;
  network : list Request;
  console : list LogEntry
}.

(** How a piece of code ends: with a value, with an exception, or with
    setHistory called on a parsed JSON value [j] that the typed state has no
    place for.  From there on [j] is the history of the component, whatever
    the history of the world beside it says, and the embedding stops. *)
Inductive Res (A : Type) : Type :=
  | Returns (a : A)
  | Throws (e : Exn)
  | Foreign (j : JSON.json).
Arguments Returns {A} a.
Arguments Throws {A} e.
Arguments Foreign {A} j.

(** Effects are kept when an exception is raised. *)
Definition M (A : Type) : Type := World → Res A * World.

#[global] Instance M_ret : MRet M := λ A a w, (Returns a, w).
#[global] Instance M_bind : MBind M := λ A B f m w,
  match m w with
  | (Returns a, w') => f a w'
  | (Throws e, w') => (Throws e, w')
  | (Foreign j, w') => (Foreign j, w')
  end.

(** try { body } catch (err) { handler err } *)
Definition try_catch {A} (body : M A) (handler : Exn → M A) : M A := λ w,
  match body w with
  | (Throws e, w') => handler e w'
  | r => r
  end.

(** try { body } finally { cleanup } *)
Definition try_finally {A} (body : M A) (cleanup : M unit) : M A := λ w,
  match body w with
  | (Foreign j, w') => (Foreign j, w')
  | (r, w') =>
      match cleanup w' with
      | (Returns _, w'') => (r, w'')
      | (Throws e, w'') => (Throws e, w'')
      | (Foreign j, w'') => (Foreign j, w'')
      end
  end.

Definition modify_app (f : State → State) : M unit := λ w,
  (Returns (), {| app := f (app w); localStorage := localStorage w;
                  network := network w; console := console w |}).

Definition setFile (v : option UploadedFile.t) : M unit :=
  modify_app (λ s, {| activeTab := activeTab s; file := v; prompt := prompt s;
                      result := result s; loading := loading s;
                      error := error s; history := history s |}).
Definition setPrompt (v : string) : M unit :=
  modify_app (λ s, {| activeTab := activeTab s; file := file s; prompt := v;
                      result := result s; loading := loading s;
                      error := error s; history := history s |}).
Definition setActiveTab (v : Tab) : M unit :=
  modify_app (λ s, {| activeTab := v; file := file s; prompt := prompt s;
                      result := result s; loading := loading s;
                      error := error s; history := history s |}).
Definition setResult (v : option AnalysisResult.t) : M unit :=
  modify_app (λ s, {| activeTab := activeTab s; file := file s; prompt := prompt s;
                      result := v; loading := loading s;
                      error := error s; history := history s |}).
Definition setLoading (v : bool) : M unit :=
  modify_app (λ s, {| activeTab := activeTab s; file := file s; prompt := prompt s;
                      result := result s; loading := v;
                      error := error s; history := history s |}).
Definition setError (v : option string) : M unit :=
  modify_app (λ s, {| activeTab := activeTab s; file := file s; prompt := prompt s;
                      result := result s; loading := loading s;
                      error := v; history := history s |}).
Definition setHistory (v : list HistoryItem.t) : M unit :=
  modify_app (λ s, {| activeTab := activeTab s; file := file s; prompt := prompt s;
                      result := result s; loading := loading s;
                      error := error s; history := v |}).

Definition localStorage_getItem (k : string) : M (option string) := λ w,
  (Returns (items (localStorage w) !! k), w).

Definition localStorage_setItem (k v : string) : M unit := λ w,
  if accepts (localStorage w) k v then
    (Returns (), {| app := app w;
                    localStorage := {| items := <[k:=v]> (items (localStorage w));
                                       accepts := accepts (localStorage w) |};
                    network := network w; console := console w |})
  else (Throws QuotaExceededError, w).

Definition console_error (entry : LogEntry) : M unit := λ w,
  (Returns (), {| app := app w; localStorage := localStorage w;
                  network := network w; console := console w ++ [entry] |}).

(** The service of [./services/geminiService]: its answer to a request,
    [None] when the promise is rejected. *)
Definition AnalysisClient : Type :=
  option string → option string → string → option AnalysisResult.t.

(** await analyzeContent(data, mimeType, prompt) *)
Definition analyzeContent (client : AnalysisClient)
    (d m : option string) (p : string) : M AnalysisResult.t := λ w,
  let w' := {| app := app w; localStorage := localStorage w;
               network := network w ++ [mkRequest d m p]; console := console w |} in
  match client d m p with
  | Some r => (Returns r, w')
  | None => (Throws AnalysisFailure, w')
  end.

(** A string in a condition: the empty string is falsy. *)
Definition truthy (s : string) : bool := negb (String.eqb s "").

(** The same for a string that may be undefined or null. *)
Definition truthy_opt (o : option string) : bool :=
  match o with
  | Some s => truthy s
  | None => false
  end.

(** [o || null], and the value an [if (o)] lets through. *)
Definition nonempty (o : option string) : option string :=
  if truthy_opt o then o else None.

Definition HISTORY_KEY : string := "vipaii_history".

(** JSON.parse(saved), used at the type HistoryItem[] without a check.  A
    value laid out exactly as the component writes its list is the list of
    its items; any other value that parses, be it null, a number, an
    object, or items with their members in another order, goes to
    setHistory as it is, which is the outcome [Foreign]. *)
Definition JSON_parse (saved : string) : M (list HistoryItem.t) := λ w,
  match JSON.parse saved with
  | None => (Throws SyntaxError, w)
  | Some j =>
      match Codec.decode_history j with
      | Some h => (Returns h, w)
      | None => (Foreign j, w)
      end
  end.

Definition JSON_stringify (h : list HistoryItem.t) : string :=
  JSON.stringify (Codec.encode_history h).

(** Date.now().toString() *)
Definition toString (now : Z) : string := JSON.Z_toString now.

(** The effect that loads the history on mount. *)
Definition loadHistory : M unit :=
  saved ← localStorage_getItem HISTORY_KEY;
  match nonempty saved with
  | Some saved =>
      try_catch
        (parsed ← JSON_parse saved; setHistory parsed)
        (λ e, console_error (LogMessage "Failed to parse history" e))
  | None => mret ()
  end.

(** The object literal of [saveToHistory]; [now_id] and [now_ts] are the
    two readings of Date.now(). *)
Definition newItem (now_id now_ts : Z)
    (res : AnalysisResult.t) (p : string) (f : option string) : HistoryItem.t :=
  {| HistoryItem.id := toString now_id;
     HistoryItem.timestamp := now_ts;
     HistoryItem.prompt :=
       if truthy p then p
       else if truthy_opt f then "Phân tích tài liệu" else "Không tiêu đề";
     HistoryItem.fileName := f;
     HistoryItem.result := res |}.

(** [saveToHistory], closed over the render [r]. *)
Definition saveToHistory (r : State) (now_id now_ts : Z)
    (res : AnalysisResult.t) (p : string) (f : option string) : M unit :=
  let updated := newItem now_id now_ts res p f :: history r in
  setHistory updated;;
  localStorage_setItem HISTORY_KEY (JSON_stringify updated).

(** [deleteHistoryItem], closed over the render [r].  The call
    e.stopPropagation() keeps the click from the card behind the button
    and leaves the world as it is. *)
Definition deleteHistoryItem (r : State) (id : string) : M unit :=
  let updated := filter (λ item, HistoryItem.id item ≠ id) (history r) in
  setHistory updated;;
  localStorage_setItem HISTORY_KEY (JSON_stringify updated).

Definition loadFromHistory (item : HistoryItem.t) : M unit :=
  setFile None;;
  setResult (Some (HistoryItem.result item));;
  setPrompt (HistoryItem.prompt item);;
  setActiveTab study.

(** [handleAnalysis], closed over the render [r]. *)
Definition handleAnalysis (r : State) (client : AnalysisClient)
    (now_id now_ts : Z) : M unit :=
  if negb (truthy (prompt r)) && negb (bool_decide (is_Some (file r))) then
    setError (Some "Vui lòng nhập nội dung hoặc tải file lên.")
  else
    setLoading true;;
    setError None;;
    try_finally
      (try_catch
         (analysis ← analyzeContent client
                       (nonempty (UploadedFile.data <$> file r))
                       (nonempty (UploadedFile.mimeType <$> file r))
                       (prompt r);
          setResult (Some analysis);;
          saveToHistory r now_id now_ts analysis (prompt r)
            (UploadedFile.name <$> file r))
         (λ err,
            console_error (LogValue err);;
            setError (Some "Có lỗi xảy ra khi phân tích. Vui lòng thử lại.")))
      (setLoading false).

(** ensureKeyAndRun awaits the action it is given. *)
Definition ensureKeyAndRun (action : M unit) : M unit := action.

(** A handler of the current render runs on the state that render shows. *)
Definition fire {A} (handler : State → M A) : M A := λ w, handler (app w) w.

(** A click on the analysis button. *)
Definition clickAnalyze (client : AnalysisClient) (now_id now_ts : Z) : M unit :=
  fire (λ r, ensureKeyAndRun (handleAnalysis r client now_id now_ts)).

(** The value or exception a computation ends with, and the world it
    leaves. *)
Definition outcome {A} (m : M A) (w : World) : Res A := (m w).1.
Definition run {A} (m : M A) (w : World) : World := (m w).2.

(** A reload of the page: the hooks start again from their initial
    values, localStorage stays. *)
Definition reload (w : World) : World :=
  {| app := initialState; localStorage := localStorage w;
     network := network w; console := console w |}.

End App.

(** * The history store, in the words of its interface

    load, append, remove and list are the mount effect, [saveToHistory],
    [deleteHistoryItem] and the [history] state variable. *)

Module HistoryStore.
Import App.

Definition load : M unit := loadHistory.

(** One call of append, with the two clock readings it meets. *)
Record Append : Type := mkAppend {
  now_id : Z;
  now_ts : Z;
  a_prompt : string;
  a_fileName : option string;
  a_result : AnalysisResult.t
}.

Definition created (c : Append) : HistoryItem.t :=
  newItem (now_id c) (now_ts c) (a_result c) (a_prompt c) (a_fileName c).

Definition append (c : Append) : M unit :=
  fire (λ r, saveToHistory r (now_id c) (now_ts c)
               (a_result c) (a_prompt c) (a_fileName c)).

Definition remove (id : string) : M unit :=
  fire (λ r, deleteHistoryItem r id).

(** Calls made one after the other, each from the render that follows
    the one before. *)
Definition appends (cs : list Append) (w : World) : World :=
  foldl (λ w c, run (append c) w) w cs.

Definition ids (h : list HistoryItem.t) : list string := HistoryItem.id <$> h.

Definition list (w : World) := history (app w).
End HistoryStore.

(** * Concrete worlds and calls *)

Module Samples.
Import App HistoryStore.

Definition photosynthesis : AnalysisResult.t :=
  {| AnalysisResult.summary := "Quang hợp biến ánh sáng thành năng lượng hoá học.";
     AnalysisResult.keywords := ["sinh học"; "diệp lục"];
     AnalysisResult.explanation :=
       Sectioned [ExplanationSection.mk "Pha sáng" "Xảy ra ở màng tilacôit.";
                  ExplanationSection.mk "Pha tối" "Chu trình Calvin."];
     AnalysisResult.examples := ["Lá cây xanh"] |}.

Definition storage_taking_writes : Storage :=
  {| items := ∅; accepts := λ _ _, true |}.

Definition storage_over_quota : Storage :=
  {| items := ∅; accepts := λ _ _, false |}.

(** A freshly mounted component over an empty storage. *)
Definition fresh : World :=
  {| app := initialState; localStorage := storage_taking_writes;
     network := []; console := [] |}.

Definition with_history (h : Datatypes.list HistoryItem.t) (s : Storage) : World :=
  {| app := {| activeTab := history_tab; file := None; prompt := "";
               result := None; loading := false; error := None; history := h |};
     localStorage := s; network := []; console := [] |}.

Definition with_input (p : string) (f : option UploadedFile.t) (s : Storage) : World :=
  {| app := {| activeTab := study; file := f; prompt := p;
               result := None; loading := false; error := None; history := [] |};
     localStorage := s; network := []; console := [] |}.

Definition first_call : Append :=
  {| now_id := 1767225600000; now_ts := 1767225600000;
     a_prompt := "Giải thích quang hợp"; a_fileName := None;
     a_result := photosynthesis |}.

(** A second call that meets the same clock reading as the first. *)
Definition same_millisecond_call : Append :=
  {| now_id := 1767225600000; now_ts := 1767225600000;
     a_prompt := "Giải thích hô hấp"; a_fileName := None;
     a_result := photosynthesis |}.

Definition later_call : Append :=
  {| now_id := 1767225600042; now_ts := 1767225600043;
     a_prompt := "Giải thích hô hấp"; a_fileName := Some "bai-5.pdf";
     a_result := photosynthesis |}.

(** A call with a file and no prompt. *)
Definition file_only_call : Append :=
  {| now_id := 1767225600100; now_ts := 1767225600100;
     a_prompt := ""; a_fileName := Some "bai-5.pdf";
     a_result := photosynthesis |}.

Definition item (i : string) (p : string) : HistoryItem.t :=
  {| HistoryItem.id := i; HistoryItem.timestamp := 1767225600000;
     HistoryItem.prompt := p; HistoryItem.fileName := None;
     HistoryItem.result := photosynthesis |}.

Definition upload : UploadedFile.t :=
  {| UploadedFile.data := "SGVsbG8="; UploadedFile.mimeType := "application/pdf";
     UploadedFile.name := "bai-5.pdf" |}.

Definition answering : AnalysisClient := λ _ _ _, Some photosynthesis.
Definition failing : AnalysisClient := λ _ _ _, None.

(** A storage whose entry under the history key is not JSON. *)
Definition storage_corrupt : Storage :=
  {| items := {[ HISTORY_KEY := "[{oops" ]}; accepts := λ _ _, true |}.
End Samples.

(** * The file input *)

Module FileInput.
Import App.

(** What [handleFileChange] reads of the selected File. *)
Record File : Type := mkFile { type : string; name : string }.

(** text.split(','): the pieces of the text between its commas. *)
Fixpoint split_comma (s : string) : list string :=
  match s with
  | EmptyString => [""]
  | String c s' =>
      if Ascii.eqb c "," then "" :: split_comma s'
      else match split_comma s' with
           | piece :: pieces => String c piece :: pieces
           | [] => [String c ""]
           end
  end.

(** [reader.onload], with the text [reader.result] holds.  The answer is
    [None] for a text without a comma: split(',')[1] is then undefined, a
    value the data of an uploaded file has no place for, and the embedding
    stops there. *)
Definition reader_onload (selectedFile : File) (reader_result : string)
    : option (M unit) :=
  base64String ← split_comma reader_result !! 1;
  Some (setFile (Some {| UploadedFile.data := base64String;
                         UploadedFile.mimeType := type selectedFile;
                         UploadedFile.name := name selectedFile |});;
        setResult None).

(** [handleFileChange] on the files of the input ([None] for null), followed
    by the load of the reader it starts; [reader_result] is the data URL the
    reader comes up with. *)
Definition handleFileChange (files : option (list File)) (reader_result : string)
    : option (M unit) :=
  match files ≫= head with
  | Some selectedFile => reader_onload selectedFile reader_result
  | None => Some (mret ())
  end.

(** The text has no comma. *)
Fixpoint comma_free (s : string) : bool :=
  match s with
  | EmptyString => true
  | String c s' => negb (Ascii.eqb c ",") && comma_free s'
  end.

End FileInput.

(** * An analysis in two steps: up to the await, and after it *)

Module Pending.
Import App.

(** The request going out. *)
Definition request_sent (d m : option string) (p : string) : M unit := λ w,
  (Returns (), {| app := app w; localStorage := localStorage w;
                  network := network w ++ [mkRequest d m p];
                  console := console w |}).

(** The promise settling: with an answer, or rejected. *)
Definition settled (answer : option AnalysisResult.t) : M AnalysisResult.t := λ w,
  match answer with
  | Some a => (Returns a, w)
  | None => (Throws AnalysisFailure, w)
  end.

(** [handleAnalysis] of the render [r] from the click to the await; the
    value tells whether a request is now pending. *)
Definition handleAnalysis_issue (r : State) : M bool :=
  if negb (truthy (prompt r)) && negb (bool_decide (is_Some (file r))) then
    setError (Some "Vui lòng nhập nội dung hoặc tải file lên.");;
    mret false
  else
    setLoading true;;
    setError None;;
    request_sent (nonempty (UploadedFile.data <$> file r))
                 (nonempty (UploadedFile.mimeType <$> file r))
                 (prompt r);;
    mret true.

(** [handleAnalysis] of the render [r] from the await on, once the promise
    has settled; it still sees the state of the render [r]. *)
Definition handleAnalysis_resume (r : State) (answer : option AnalysisResult.t)
    (now_id now_ts : Z) : M unit :=
  try_finally
    (try_catch
       (analysis ← settled answer;
        setResult (Some analysis);;
        saveToHistory r now_id now_ts analysis (prompt r)
          (UploadedFile.name <$> file r))
       (λ err,
          console_error (LogValue err);;
          setError (Some "Có lỗi xảy ra khi phân tích. Vui lòng thử lại.")))
    (setLoading false).

End Pending.

(** * The controls of the page and what they run *)

Module UI.
Import App FileInput.

#[global] Instance Tab_eq_dec : EqDecision Tab.
Proof. solve_decision. Defined.

(** What the user can do on the page, with what the outside world answers:
    the text a reader comes up with, the answer of the analysis service,
    the readings of the clock. *)
Inductive Event : Type :=
  | TabClicked (tab : Tab)
  | CardClicked (item : HistoryItem.t)
  | DeleteClicked (item : HistoryItem.t)
  | FileChosen (files : option (list File)) (reader_result : string)
  | PromptTyped (value : string)
  | AnalyzeClicked (client : AnalysisClient) (now_id now_ts : Z).

(** The controls the render of [r] shows: the cards and their delete
    buttons under the history tab, one per item; the inputs and the
    analysis button under the study tab, the button disabled while
    loading. *)
Definition offered (r : State) (e : Event) : bool :=
  match e with
  | TabClicked _ => true
  | CardClicked item | DeleteClicked item =>
      bool_decide (activeTab r = history_tab) && bool_decide (item ∈ history r)
  | FileChosen _ _ | PromptTyped _ => bool_decide (activeTab r = study)
  | AnalyzeClicked _ _ _ => bool_decide (activeTab r = study) && negb (loading r)
  end.

(** The handler the render of [r] attaches to each control.  The click on
    a delete button stops at the button and does not reach the card. *)
Definition handler (r : State) (e : Event) : option (M unit) :=
  match e with
  | TabClicked tab => Some (setActiveTab tab)
  | CardClicked item => Some (loadFromHistory item)
  | DeleteClicked item => Some (deleteHistoryItem r (HistoryItem.id item))
  | FileChosen files reader_result => handleFileChange files reader_result
  | PromptTyped value => Some (setPrompt value)
  | AnalyzeClicked client now_id now_ts =>
      Some (ensureKeyAndRun (handleAnalysis r client now_id now_ts))
  end.

(** One event, run to its end on the world [w]; [None] when the page does
    not offer the control, or where the embedding of the handler stops. *)
Definition dispatch (e : Event) (w : World) : option World :=
  if offered (app w) e then (λ m, run m w) <$> handler (app w) e else None.

(** Events one after the other, each run to its end before the next. *)
Fixpoint dispatch_all (es : list Event) (w : World) : option World :=
  match es with
  | [] => Some w
  | e :: es' => dispatch e w ≫= dispatch_all es'
  end.

(** The ids the analyses of a session would give to their items. *)
Fixpoint analysis_ids (es : list Event) : list string :=
  match es with
  | [] => []
  | AnalyzeClicked _ now_id _ :: es' => toString now_id :: analysis_ids es'
  | _ :: es' => analysis_ids es'
  end.

End UI.

(** * The history as a value *)

Module Loaded.
Import App.

(** The value the history state holds after a computation, as JSON: the
    parsed value where setHistory was called with one that is no list of
    items, and the list of items of the state otherwise. *)
Definition history_after {A} (m : M A) (w : World) : JSON.json :=
  match outcome m w with
  | Foreign j => j
  | _ => Codec.encode_history (history (app (run m w)))
  end.

(** A freshly mounted component over a storage that holds [saved] under the
    history key. *)
Definition mounted_over (saved : string) : World :=
  {| app := initialState;
     localStorage := {| items := {[ HISTORY_KEY := saved ]};
                        accepts := λ _ _, true |};
     network := []; console := [] |}.

End Loaded.

(** * Conditions on worlds *)

Module Conditions.
Import App HistoryStore.

(** The storage holds, under the history key, the text of the list in
    memory. *)
Definition synced (w : World) : Prop :=
  items (localStorage w) !! HISTORY_KEY = Some (JSON_stringify (list w)).

(** The storage [s] after an attempt to write the list [h] under the
    history key. *)
Definition written (h : Datatypes.list HistoryItem.t) (s : Storage) : Storage :=
  if accepts s HISTORY_KEY (JSON_stringify h)
  then {| items := <[HISTORY_KEY := JSON_stringify h]> (items s);
          accepts := accepts s |}
  else s.

(** The storage mirrors the list: it holds its text, or holds nothing under
    the history key while the list is empty. *)
Definition mirrored (w : World) : Prop :=
  synced w
  ∨ (items (localStorage w) !! HISTORY_KEY = None ∧ list w = []).

(** The browser takes every write. *)
Definition roomy (s : Storage) : Prop := ∀ k v, accepts s k v = true.

(** Every item has a prompt to show. *)
Definition titled (h : Datatypes.list HistoryItem.t) : Prop :=
  Forall (λ item, HistoryItem.prompt item ≠ "") h.

End Conditions.

(** * A session of the page *)

Module Session.
Import App FileInput UI.

Definition chosen : File :=
  {| type := "application/pdf"; name := "bai-5.pdf" |}.

Definition data_url : string := "data:application/pdf;base64,SGVsbG8=".

(** The user types a prompt, has it analysed, has it analysed again a
    moment later, and deletes the first item under the history tab. *)
Definition events : Datatypes.list Event :=
  [PromptTyped "Giải thích quang hợp";
   AnalyzeClicked Samples.answering 1767225600000 1767225600001;
   AnalyzeClicked Samples.answering 1767225600500 1767225600500;
   TabClicked history_tab;
   DeleteClicked (newItem 1767225600000 1767225600001 Samples.photosynthesis
                    "Giải thích quang hợp" None)].

End Session.

(** * Facts about the JSON text format *)

Module JSONFacts.
Import JSON.
#[local] Arguments String.append : simpl nomatch.
#[local] Arguments join : simpl never.

Lemma append_assoc (a b c : string) : (a +:+ b) +:+ c = a +:+ (b +:+ c).
Proof. induction a as [|x a IH]; simpl; [done | by rewrite IH]. Qed.

Lemma length_append (a b : string) :
  String.length (a +:+ b) = String.length a + String.length b.
Proof. induction a as [|x a IH]; simpl; [done | by rewrite IH]. Qed.

Lemma number_end_no_digit s : number_end s → no_digit_head s.
Proof. destruct s; simpl; [done | tauto]. Qed.

Lemma read_digits_print (u : Decimal.uint) (rest : string) :
  no_digit_head rest →
  read_digits (NilEmpty.string_of_uint u +:+ rest) = (u, rest).
Proof.
  intros Hrest. induction u; simpl; try (rewrite IHu; reflexivity).
  destruct rest as [|c rest]; simpl in *; [done | by rewrite Hrest].
Qed.

Lemma nzhead_not_zero (d : Decimal.uint) :
  match Decimal.nzhead d with Decimal.D0 _ => False | _ => True end.
Proof. induction d; simpl; auto. Qed.

Lemma to_uint_normal (n : N) :
  N.to_uint n = Decimal.D0 Decimal.Nil
  ∨ match N.to_uint n with Decimal.Nil | Decimal.D0 _ => False | _ => True end.
Proof.
  rewrite <- (DecimalN.Unsigned.of_to n) at 1 2.
  rewrite DecimalN.Unsigned.to_of. unfold Decimal.unorm.
  pose proof (nzhead_not_zero (N.to_uint n)) as H.
  destruct (Decimal.nzhead (N.to_uint n)); auto.
Qed.

(** The digits of [n], read back as a run of digits of some length. *)
Lemma read_run_print (n : N) (rest : string) :
  no_digit_head rest →
  ∃ u, read_digits (N_toString n +:+ rest) = (u, rest)
       ∧ u ≠ Decimal.Nil ∧ N.of_uint u = n.
Proof.
  intros Hrest. exists (N.to_uint n). unfold N_toString.
  rewrite read_digits_print by done. split; [done |].
  split; [| apply DecimalN.Unsigned.of_to].
  destruct (to_uint_normal n) as [H0 | Hnz]; [by rewrite H0 |].
  by destruct (N.to_uint n).
Qed.

Lemma read_int_print (n : N) (rest : string) :
  no_digit_head rest → read_int (N_toString n +:+ rest) = Some (n, rest).
Proof.
  intros Hrest. unfold read_int, N_toString.
  rewrite read_digits_print by done.
  pose proof (DecimalN.Unsigned.of_to n) as Hn.
  destruct (to_uint_normal n) as [H0 | Hnz].
  - rewrite H0 in *. simpl in Hn. by subst n.
  - destruct (N.to_uint n); try done; by rewrite Hn.
Qed.

Lemma N_toString_head (n : N) :
  ∃ c s, N_toString n = String c s ∧ num_start c = true
         ∧ Ascii.eqb c "-" = false ∧ Ascii.eqb c "+" = false.
Proof.
  unfold N_toString.
  destruct (to_uint_normal n) as [H0 | Hnz].
  - rewrite H0. simpl. eauto 10.
  - destruct (N.to_uint n); try done; simpl; eauto 10.
Qed.

Lemma N_toString_unsigned (n : N) (rest : string) :
  starts_with "-" (N_toString n +:+ rest) = None
  ∧ starts_with "+" (N_toString n +:+ rest) = None.
Proof.
  destruct (N_toString_head n) as (c & s & -> & _ & Hm & Hp).
  simpl. by rewrite Hm, Hp.
Qed.

Lemma Z_toString_head (z : Z) :
  ∃ c s, Z_toString z = String c s ∧ num_start c = true.
Proof.
  unfold Z_toString. destruct (z <? 0)%Z; [by eauto |].
  destruct (N_toString_head (Z.abs_N z)) as (c & s & -> & ? & _). eauto.
Qed.

Lemma read_exp_print (e : Z) (rest : string) :
  no_digit_head rest →
  read_exp (String "e" (Z_toString e +:+ rest)) = Some (e, rest).
Proof.
  intros Hrest. unfold read_exp. simpl. unfold Z_toString.
  destruct (read_run_print (Z.abs_N e) rest Hrest) as (u & Hu & Hnil & Hval).
  destruct (Z.ltb_spec e 0) as [Hneg | Hpos].
  - simpl. rewrite Hu. destruct u; try done; rewrite Hval; f_equal; f_equal; lia.
  - destruct (N_toString_unsigned (Z.abs_N e) rest) as [-> ->]. rewrite Hu.
    destruct u; try done; rewrite Hval; f_equal; f_equal; lia.
Qed.

Lemma read_number_tail (m e : Z) (tail rest : string) :
  no_digit_head tail →
  read_frac tail = Some (0%N, 0, tail) →
  read_exp tail = Some (e, rest) →
  read_number (Z_toString m +:+ tail) = Some (JNum m e, rest).
Proof.
  intros Htail Hfrac Hexp. unfold read_number, Z_toString.
  destruct (Z.ltb_spec m 0) as [Hneg | Hpos].
  - simpl. rewrite read_int_print by done. simpl. rewrite Hfrac. simpl.
    rewrite Hexp. simpl. f_equal. f_equal. f_equal; lia.
  - destruct (N_toString_unsigned (Z.abs_N m) tail) as [-> _].
    rewrite read_int_print by done. simpl. rewrite Hfrac. simpl.
    rewrite Hexp. simpl. f_equal. f_equal. f_equal; lia.
Qed.

Lemma read_number_print (m e : Z) (rest : string) :
  number_end rest →
  read_number (number_toString m e +:+ rest) = Some (JNum m e, rest).
Proof.
  intros Hrest. unfold number_toString.
  destruct (Z.eqb_spec e 0) as [-> | Hne].
  - apply read_number_tail; [by apply number_end_no_digit | |].
    + destruct rest as [|c r]; [done |]. simpl in Hrest.
      unfold read_frac. simpl. by destruct Hrest as (_ & -> & _).
    + destruct rest as [|c r]; [done |]. simpl in Hrest.
      unfold read_exp. simpl. by destruct Hrest as (_ & _ & -> & ->).
  - rewrite append_assoc. simpl.
    apply read_number_tail; [done | done |].
    apply read_exp_print. by apply number_end_no_digit.
Qed.

Lemma number_head (m e : Z) (rest : string) :
  ∃ c s, number_toString m e +:+ rest = String c s ∧ num_start c = true.
Proof.
  unfold number_toString.
  destruct (Z_toString_head m) as (c & s & Hs & Hc).
  destruct (e =? 0)%Z; rewrite ?append_assoc, Hs; simpl; eauto.
Qed.

(** ** String literals *)

Lemma read_chars_escape_char (c : ascii) (tail : string) :
  read_chars (escape_char c +:+ tail)
  = '(body, r) ← read_chars tail; Some (String c body, r).
Proof. destruct c as [[] [] [] [] [] [] [] []]; reflexivity. Qed.

Lemma read_chars_escape (s rest : string) :
  read_chars (escape s +:+ String dquote rest) = Some (s, rest).
Proof.
  induction s as [|c s IH]; [done |].
  simpl escape. rewrite append_assoc, read_chars_escape_char, IH. done.
Qed.

(** ** Values *)

Lemma num_start_head (c : ascii) :
  num_start c = true →
  is_ws c = false ∧ Ascii.eqb c "]" = false ∧ Ascii.eqb c "}" = false.
Proof. destruct c as [[] [] [] [] [] [] [] []]; done. Qed.

(** A serialised value begins with a character that is neither white
    space nor a closing bracket. *)
Lemma stringify_head (j : json) (rest : string) :
  ∃ c s, stringify j +:+ rest = String c s
         ∧ is_ws c = false ∧ Ascii.eqb c "]" = false ∧ Ascii.eqb c "}" = false.
Proof.
  destruct j as [| [] | m e | s | l | kvs]; simpl; eauto 10.
  destruct (number_head m e rest) as (c & s & -> & Hc).
  exists c, s. split; [done |]. by apply num_start_head.
Qed.

Lemma skip_ws_stringify (j : json) (rest : string) :
  skip_ws (stringify j +:+ rest) = stringify j +:+ rest
  ∧ starts_with "]" (stringify j +:+ rest) = None
  ∧ starts_with "}" (stringify j +:+ rest) = None.
Proof.
  destruct (stringify_head j rest) as (c & s & -> & Hw & Hb & Hc).
  simpl. by rewrite Hw, Hb, Hc.
Qed.

Lemma join_cons (x : string) (l : list string) (rest : string) (close : ascii) :
  join "," (x :: l) +:+ String close rest
  = x +:+ match l with
          | [] => String close rest
          | _ => String "," (join "," l +:+ String close rest)
          end.
Proof.
  destruct l as [|y l]; [done |].
  change (join "," (x :: y :: l)) with (x +:+ "," +:+ join "," (y :: l)).
  by rewrite !append_assoc.
Qed.

Lemma length_join_cons (x y : string) (l : list string) :
  String.length (join "," (x :: y :: l))
  = String.length x + S (String.length (join "," (y :: l))).
Proof.
  change (join "," (x :: y :: l)) with (x +:+ "," +:+ join "," (y :: l)).
  rewrite !length_append. simpl. lia.
Qed.

Lemma append_cons (c : ascii) (a b : string) :
  String c a +:+ b = String c (a +:+ b).
Proof. reflexivity. Qed.

Lemma parse_value_array (f : nat) (s : string) :
  parse_value (S f) (String "[" s)
  = match starts_with "]" (skip_ws s) with
    | Some r => Some (JArr [], r)
    | None => '(l, r) ← parse_elements f (skip_ws s); Some (JArr l, r)
    end.
Proof. reflexivity. Qed.

Lemma parse_value_object (f : nat) (s : string) :
  parse_value (S f) (String "{" s)
  = match starts_with "}" (skip_ws s) with
    | Some r => Some (JObj [], r)
    | None => '(kvs, r) ← parse_members f (skip_ws s); Some (JObj kvs, r)
    end.
Proof. reflexivity. Qed.

Lemma stringify_object (kvs : list (string * json)) :
  stringify (JObj kvs) = String "{" (join "," (map member kvs) +:+ "}").
Proof. reflexivity. Qed.

Lemma member_head (k : string) (v : json) (rest : string) :
  ∃ t, member (k, v) +:+ rest = String dquote t.
Proof. unfold member, quote. simpl. eauto. Qed.

Lemma parse_value_step (f : nat) :
  elements_ok f → members_ok f → value_ok (S f).
Proof.
  intros HQ HR j rest Hlen Hrest.
  destruct j as [| [] | m e | s | l | kvs]; try reflexivity.
  - destruct (number_head m e rest) as (c & s & Hs & Hc).
    cbn [stringify]. rewrite Hs. cbn [parse_value]. rewrite Hc, <- Hs.
    by apply read_number_print.
  - cbn [stringify]. unfold quote. simpl. rewrite append_assoc. simpl.
    by rewrite read_chars_escape.
  - destruct l as [|x l]; [reflexivity |].
    cbn [stringify String.length] in Hlen. rewrite length_append in Hlen.
    cbn [String.length] in Hlen.
    cbn [stringify]. rewrite append_cons, parse_value_array, append_assoc.
    simpl ("]" +:+ rest).
    assert (Hsk : ∃ t, join "," (map stringify (x :: l)) +:+ String "]" rest
                       = stringify x +:+ t).
    { cbn [map]. rewrite join_cons. eauto. }
    destruct Hsk as (t & Ht).
    destruct (skip_ws_stringify x t) as (Hw & Hb & _).
    rewrite Ht, Hw, Hb, <- Ht. rewrite HQ; [done | done | lia].
  - destruct kvs as [|[k v] kvs]; [reflexivity |].
    rewrite stringify_object in *.
    cbn [String.length] in Hlen. rewrite length_append in Hlen.
    cbn [String.length] in Hlen.
    rewrite append_cons, parse_value_object, append_assoc.
    simpl ("}" +:+ rest).
    assert (Hsk : ∃ t, join "," (map member ((k, v) :: kvs)) +:+ String "}" rest
                       = String dquote t).
    { cbn [map]. rewrite join_cons.
      destruct (member_head k v
        match map member kvs with
        | [] => String "}" rest
        | _ => String "," (join "," (map member kvs) +:+ String "}" rest)
        end) as (t & ->). eauto. }
    destruct Hsk as (t & Ht).
    rewrite Ht. simpl. rewrite <- Ht. rewrite HR; [done | done | lia].
Qed.

Lemma delimiter_number_end (l : list string) (close : ascii) (rest : string) :
  close = "]"%char ∨ close = "}"%char →
  number_end match l with
             | [] => String close rest
             | _ => String "," (join "," l +:+ String close rest)
             end.
Proof. intros [-> | ->]; destruct l; done. Qed.

Lemma parse_elements_step (f : nat) :
  value_ok f → elements_ok f → elements_ok (S f).
Proof.
  intros HP HQ l rest Hne Hlen.
  destruct l as [|x l]; [done |]. clear Hne.
  cbn [map parse_elements]. rewrite join_cons.
  rewrite HP; [| | apply delimiter_number_end; by left].
  - destruct l as [|y l]; [reflexivity |].
    cbn [map] in *. rewrite length_join_cons in Hlen.
    cbn [mbind option_bind]. simpl (starts_with "," _).
    assert (Hsk : ∃ t, join "," (stringify y :: map stringify l) +:+ String "]" rest
                       = stringify y +:+ t) by (rewrite join_cons; eauto).
    destruct Hsk as (t & Ht).
    destruct (skip_ws_stringify y t) as (Hw & _).
    rewrite Ht, Hw, <- Ht.
    rewrite (HQ (y :: l)); [done | done |]. cbn [map]. lia.
  - destruct l as [|y l]; cbn [map] in Hlen;
      [change (join "," [stringify x]) with (stringify x) in Hlen; lia |].
    rewrite length_join_cons in Hlen. lia.
Qed.

Lemma parse_members_step (f : nat) :
  value_ok f → members_ok f → members_ok (S f).
Proof.
  intros HP HR kvs rest Hne Hlen.
  destruct kvs as [|[k v] kvs]; [done |]. clear Hne.
  cbn [map]. rewrite join_cons.
  set (delim := match map member kvs with
                | [] => String "}" rest
                | _ => String "," (join "," (map member kvs) +:+ String "}" rest)
                end).
  assert (Hv : String.length (stringify v) ≤ f).
  { destruct kvs as [|kv kvs]; cbn [map] in Hlen.
    - change (join "," [member (k, v)]) with (member (k, v)) in Hlen.
      unfold member in Hlen. rewrite length_append in Hlen. simpl in Hlen. lia.
    - rewrite length_join_cons in Hlen.
      unfold member at 1 in Hlen. rewrite length_append in Hlen.
      simpl in Hlen. lia. }
  unfold member at 1. unfold quote. cbn [fst snd].
  rewrite !append_assoc, !append_cons, !append_assoc, !append_cons.
  cbn [parse_members starts_with]. rewrite Ascii.eqb_refl.
  cbn [mbind option_bind]. rewrite read_chars_escape.
  cbn [mbind option_bind]. simpl (starts_with ":" _).
  cbn [mbind option_bind]. simpl ("" +:+ _).
  destruct (skip_ws_stringify v delim) as (-> & _).
  rewrite HP; [| done | apply delimiter_number_end; by right].
  subst delim. destruct kvs as [|[k' v'] kvs]; [reflexivity |].
  cbn [map] in *. rewrite length_join_cons in Hlen.
  cbn [mbind option_bind]. simpl (starts_with "," _).
  assert (Hsk : ∃ t, join "," (member (k', v') :: map member kvs) +:+ String "}" rest
                     = String dquote t).
  { rewrite join_cons.
    destruct (member_head k' v'
      match map member kvs with
      | [] => String "}" rest
      | _ => String "," (join "," (map member kvs) +:+ String "}" rest)
      end) as (t & ->). eauto. }
  destruct Hsk as (t & Ht).
  rewrite Ht. simpl (skip_ws _). rewrite <- Ht.
  rewrite (HR ((k', v') :: kvs)); [done | done |]. cbn [map]. lia.
Qed.

Lemma stringify_length_pos (j : json) : 0 < String.length (stringify j).
Proof.
  destruct (stringify_head j "") as (c & s & Hs & _).
  apply (f_equal String.length) in Hs. rewrite length_append in Hs.
  simpl in Hs. lia.
Qed.

Lemma parse_ok (f : nat) : value_ok f ∧ elements_ok f ∧ members_ok f.
Proof.
  induction f as [|f (HP & HQ & HR)].
  - split; [| split].
    + intros j rest Hlen _. pose proof (stringify_length_pos j). lia.
    + intros l rest _ Hlen. lia.
    + intros l rest _ Hlen. lia.
  - split; [| split].
    + by apply parse_value_step.
    + by apply parse_elements_step.
    + by apply parse_members_step.
Qed.

Lemma append_empty_r (s : string) : s +:+ "" = s.
Proof. induction s as [|c s IH]; simpl; [done | by rewrite IH]. Qed.

(** Parsing what [stringify] wrote gives the value back. *)
Lemma parse_stringify (j : json) : parse (stringify j) = Some j.
Proof.
  unfold parse.
  destruct (skip_ws_stringify j "") as (Hw & _).
  rewrite append_empty_r in Hw. rewrite Hw.
  destruct (parse_ok (S (String.length (stringify j)))) as (HP & _).
  specialize (HP j ""). rewrite append_empty_r in HP.
  rewrite HP; [done | lia | done].
Qed.

End JSONFacts.

(** * Facts about the persisted layout *)

Module CodecFacts.
Import JSON Codec.

Lemma mapM_as_string (l : list string) : mapM as_string (map JStr l) = Some l.
Proof. induction l as [|x l IH]; [done |]. simpl. by rewrite IH. Qed.

Lemma decode_encode_section (s : ExplanationSection.t) :
  decode_section (encode_section s) = Some s.
Proof.
  destruct s as [t c]. unfold encode_section, decode_section.
  cbn [ExplanationSection.title ExplanationSection.content].
  by rewrite decide_True.
Qed.

Lemma mapM_decode_section (l : list ExplanationSection.t) :
  mapM decode_section (map encode_section l) = Some l.
Proof.
  induction l as [|x l IH]; [done |].
  cbn [map mapM]. rewrite decode_encode_section. simpl. by rewrite IH.
Qed.

Lemma decode_encode_explanation (e : Explanation) :
  decode_explanation (encode_explanation e) = Some e.
Proof. destruct e; [done |]. simpl. by rewrite mapM_decode_section. Qed.

Lemma decode_encode_result (r : AnalysisResult.t) :
  decode_result (encode_result r) = Some r.
Proof.
  destruct r as [s kw ex xs]. unfold encode_result, decode_result.
  cbn [AnalysisResult.summary AnalysisResult.keywords
       AnalysisResult.explanation AnalysisResult.examples].
  rewrite decide_True by done.
  rewrite !mapM_as_string, decode_encode_explanation. done.
Qed.

Lemma decode_encode_item (it : HistoryItem.t) :
  decode_item (encode_item it) = Some it.
Proof.
  destruct it as [i t p [f|] r]; unfold encode_item, decode_item;
    cbn [HistoryItem.id HistoryItem.timestamp HistoryItem.prompt
         HistoryItem.fileName HistoryItem.result app];
    rewrite !decide_True by done; by rewrite decode_encode_result.
Qed.

(** What [encode_history] lays out is read back as the same list. *)
Lemma decode_encode_history (h : list HistoryItem.t) :
  decode_history (encode_history h) = Some h.
Proof.
  unfold encode_history, decode_history.
  induction h as [|it h IH]; [done |].
  cbn [map mapM]. rewrite decode_encode_item. simpl. by rewrite IH.
Qed.

Lemma as_string_inv (l : list json) (k : list string) :
  mapM as_string l = Some k → map JStr k = l.
Proof.
  intros H. apply mapM_Some_1 in H.
  induction H as [|x y l k Hxy _ IH]; [done |].
  destruct x; try discriminate Hxy. injection Hxy as <-. cbn. by rewrite IH.
Qed.

(** Takes apart a successful decoding by the cases of its matches. *)
Ltac invert_decode :=
  repeat first [case_decide | case_match]; try discriminate; subst;
  repeat match goal with Hc : _ ∧ _ |- _ => destruct Hc end; subst;
  simplify_option_eq.

Lemma encode_decode_section (j : json) (s : ExplanationSection.t) :
  decode_section j = Some s → encode_section s = j.
Proof.
  unfold decode_section, encode_section. intros H. by invert_decode.
Qed.

Lemma encode_decode_sections (l : list json) (k : list ExplanationSection.t) :
  mapM decode_section l = Some k → map encode_section k = l.
Proof.
  intros H. apply mapM_Some_1 in H.
  induction H as [|x y l k Hxy _ IH]; [done |].
  cbn. by rewrite (encode_decode_section _ _ Hxy), IH.
Qed.

Lemma encode_decode_explanation (j : json) (e : Explanation) :
  decode_explanation j = Some e → encode_explanation e = j.
Proof.
  destruct j as [| | | text | l |]; try discriminate; cbn.
  - by intros [= <-].
  - destruct (mapM decode_section l) as [k|] eqn:Hk; [| discriminate].
    intros [= <-]. cbn. by rewrite (encode_decode_sections _ _ Hk).
Qed.

Lemma encode_decode_result (j : json) (r : AnalysisResult.t) :
  decode_result j = Some r → encode_result r = j.
Proof.
  unfold decode_result, encode_result. intros H. invert_decode;
    repeat match goal with
    | Hk : mapM as_string _ = Some _ |- _ => apply as_string_inv in Hk
    | He : decode_explanation _ = Some _ |- _ =>
        apply encode_decode_explanation in He
    end; subst; reflexivity.
Qed.

Lemma encode_decode_item (j : json) (it : HistoryItem.t) :
  decode_item j = Some it → encode_item it = j.
Proof.
  unfold decode_item, encode_item.
  destruct j as [| | | | |kvs]; try discriminate.
  destruct kvs as [|[k1 [| | |i| |]] [|[k2 [| |t e| | |]]
                   [|[k3 [| | |p| |]] rest]]]; try discriminate;
    destruct e; try discriminate; lazy beta iota.
  case_decide as Hk; [| done]. destruct Hk as (-> & -> & ->).
  destruct rest as [|[k4 v4] [|[k5 v5] [|]]]; try done.
  - destruct v4; lazy beta iota;
      (case_decide as Hr; [| done]); subst k4;
      intros (res & Hres & ->)%fmap_Some;
      apply encode_decode_result in Hres;
      cbn [HistoryItem.id HistoryItem.timestamp HistoryItem.prompt
           HistoryItem.fileName HistoryItem.result app];
      by rewrite Hres.
  - destruct v4; try done.
    case_decide as Hr; [| done]. destruct Hr as [-> ->].
    intros (res & Hres & ->)%fmap_Some.
    apply encode_decode_result in Hres.
    cbn [HistoryItem.id HistoryItem.timestamp HistoryItem.prompt
         HistoryItem.fileName HistoryItem.result app].
    by rewrite Hres.
  - by destruct v4.
Qed.

(** A value is read as a list only when it is what [encode_history] lays
    out for that list. *)
Lemma encode_decode_history (j : json) (h : list HistoryItem.t) :
  decode_history j = Some h → encode_history h = j.
Proof.
  destruct j as [| | | | l |]; try discriminate. cbn. intros H.
  apply mapM_Some_1 in H. unfold encode_history. f_equal.
  induction H as [|x y l k Hxy _ IH]; [done |].
  cbn. by rewrite (encode_decode_item _ _ Hxy), IH.
Qed.

Lemma N_toString_inj (a b : N) : N_toString a = N_toString b → a = b.
Proof.
  unfold N_toString. intros H.
  apply (f_equal NilEmpty.uint_of_string) in H.
  rewrite !NilEmpty.usu in H. injection H as H.
  apply (f_equal N.of_uint) in H. by rewrite !DecimalN.Unsigned.of_to in H.
Qed.

(** Distinct integers have distinct decimal texts. *)
Lemma Z_toString_inj (a b : Z) : Z_toString a = Z_toString b → a = b.
Proof.
  unfold Z_toString.
  destruct (JSONFacts.N_toString_head (Z.abs_N a)) as (ca & sa & Ha & _ & Hma & _).
  destruct (JSONFacts.N_toString_head (Z.abs_N b)) as (cb & sb & Hb & _ & Hmb & _).
  destruct (Z.ltb_spec a 0) as [Hlta | Hgea],
    (Z.ltb_spec b 0) as [Hltb | Hgeb]; intros Heq.
  - injection Heq as Heq. apply N_toString_inj in Heq. lia.
  - rewrite Hb in Heq. injection Heq as <- _. done.
  - rewrite Ha in Heq. injection Heq as -> _. done.
  - apply N_toString_inj in Heq. lia.
Qed.
End CodecFacts.

(** * Facts about the history *)

Module HistoryFacts.
Import App HistoryStore.

(** Unfolds a handler down to the world it computes. *)
Ltac unfold_handlers :=
  unfold list, outcome, run, load, append, remove, clickAnalyze, ensureKeyAndRun,
    fire, loadHistory,
    handleAnalysis, saveToHistory, deleteHistoryItem, try_finally, try_catch,
    analyzeContent, localStorage_setItem, localStorage_getItem, console_error,
    setHistory, setError, setLoading, setResult, modify_app,
    mbind, M_bind, mret, M_ret in *;
  cbn [fst snd app localStorage network console history error loading
       result file prompt activeTab items accepts] in *.

Lemma append_list (c : Append) (w : World) :
  list (run (append c) w) = created c :: list w.
Proof. unfold_handlers. by destruct (accepts _ _ _). Qed.

Lemma append_outcome (c : Append) (w : World) :
  outcome (append c) w
  = if accepts (localStorage w) HISTORY_KEY (JSON_stringify (created c :: list w))
    then Returns () else Throws QuotaExceededError.
Proof. unfold_handlers. unfold created. by destruct (accepts _ _ _). Qed.

Lemma append_storage (c : Append) (w : World) :
  localStorage (run (append c) w)
  = if accepts (localStorage w) HISTORY_KEY (JSON_stringify (created c :: list w))
    then {| items := <[HISTORY_KEY := JSON_stringify (created c :: list w)]>
                       (items (localStorage w));
            accepts := accepts (localStorage w) |}
    else localStorage w.
Proof. unfold_handlers. unfold created. by destruct (accepts _ _ _). Qed.

Lemma remove_list (i : string) (w : World) :
  list (run (remove i) w) = filter (λ item, HistoryItem.id item ≠ i) (list w).
Proof. unfold_handlers. by destruct (accepts _ _ _). Qed.

Lemma remove_outcome (i : string) (w : World) :
  outcome (remove i) w
  = if accepts (localStorage w) HISTORY_KEY
         (JSON_stringify (filter (λ item, HistoryItem.id item ≠ i) (list w)))
    then Returns () else Throws QuotaExceededError.
Proof. unfold_handlers. by destruct (accepts _ _ _). Qed.

Lemma remove_storage (i : string) (w : World) :
  localStorage (run (remove i) w)
  = let updated := filter (λ item, HistoryItem.id item ≠ i) (list w) in
    if accepts (localStorage w) HISTORY_KEY (JSON_stringify updated)
    then {| items := <[HISTORY_KEY := JSON_stringify updated]>
                       (items (localStorage w));
            accepts := accepts (localStorage w) |}
    else localStorage w.
Proof. unfold_handlers. by destruct (accepts _ _ _). Qed.

Lemma appends_list (cs : Datatypes.list Append) (w : World) :
  list (appends cs w) = reverse (created <$> cs) ++ list w.
Proof.
  revert w. induction cs as [|c cs IH]; intros w; [done |].
  cbn [appends foldl]. fold (appends cs (run (append c) w)).
  rewrite IH, append_list, fmap_cons, reverse_cons, <- app_assoc. done.
Qed.

(** The mount effect on a store without a usable value. *)
Lemma load_absent (w : World) :
  nonempty (items (localStorage w) !! HISTORY_KEY) = None →
  load w = (Returns (), w).
Proof. intros H. unfold_handlers. by rewrite H. Qed.

Lemma load_present (w : World) (saved : string) :
  nonempty (items (localStorage w) !! HISTORY_KEY) = Some saved →
  load w
  = match JSON.parse saved with
    | None =>
        (Returns (),
         {| app := app w; localStorage := localStorage w; network := network w;
            console := console w
                       ++ [LogMessage "Failed to parse history" SyntaxError] |})
    | Some j =>
        match Codec.decode_history j with
        | Some h => (Returns (), run (setHistory h) w)
        | None => (Foreign j, w)
        end
    end.
Proof.
  intros H. unfold_handlers. rewrite H. unfold JSON_parse.
  destruct (JSON.parse saved) as [j|]; [| done].
  by destruct (Codec.decode_history j).
Qed.
Lemma truthy_spec (s : string) : truthy s = true ↔ s ≠ "".
Proof.
  unfold truthy. rewrite negb_true_iff. apply String.eqb_neq.
Qed.

(** C2: for every sequence of append calls, list() is the created items
    in reverse insertion order, before the items that were there: each
    append puts its item at the head and leaves the others in place,
    whatever the timestamps are. *)
Theorem appends_most_recent_first :
  (∀ (c : Append) (w : World), list (run (append c) w) = created c :: list w)
  ∧ (∀ (cs : Datatypes.list Append) (w : World),
       list (appends cs w) = reverse (created <$> cs) ++ list w).
Proof. split; [apply append_list | apply appends_list]. Qed.
Lemma toString_inj (a b : Z) : toString a = toString b → a = b.
Proof. apply CodecFacts.Z_toString_inj. Qed.

(** C1, as the code has it: the id of an item is the decimal text of the
    clock reading taken when it is created.  Two appends in sequence put
    their two items at the head of the list, and these carry the same id
    exactly when the two readings are equal; the ids of the store stay
    pairwise distinct after an append when they were so before and the text
    of the new reading is not among them. *)
Theorem append_ids_follow_clock (c1 c2 : Append) (w : World) :
  list (appends [c1; c2] w) = created c2 :: created c1 :: list w
  ∧ (HistoryItem.id (created c1) = HistoryItem.id (created c2)
     ↔ now_id c1 = now_id c2)
  ∧ (NoDup (ids (list w)) → toString (now_id c1) ∉ ids (list w) →
     NoDup (ids (list (run (append c1) w)))).
Proof.
  split; [| split].
  - by rewrite appends_list.
  - unfold created, newItem. cbn [HistoryItem.id]. split.
    + apply toString_inj.
    + by intros ->.
  - intros Hnd Hfresh. rewrite append_list. unfold ids in *.
    rewrite fmap_cons. apply NoDup_cons. by split.
Qed.

Lemma append_ids_follow_clock_witness :
  list (appends [Samples.first_call; Samples.later_call] Samples.fresh)
  = [created Samples.later_call; created Samples.first_call]
  ∧ HistoryItem.id (created Samples.first_call)
    ≠ HistoryItem.id (created Samples.later_call)
  ∧ NoDup (ids (list (run (append Samples.first_call) Samples.fresh))).
Proof.
  destruct (append_ids_follow_clock Samples.first_call Samples.later_call
              Samples.fresh) as (Hlist & Hid & Hnd).
  split; [exact Hlist | split].
  - intros Heq. apply Hid in Heq. vm_compute in Heq. discriminate Heq.
  - apply Hnd; [apply NoDup_nil_2 | apply not_elem_of_nil].
Defined.

(** C1 fails as stated: two appends that meet the same clock reading leave
    two items with one id in the store. *)
Lemma same_millisecond_same_id :
  let h := list (appends [Samples.first_call; Samples.same_millisecond_call]
                   Samples.fresh) in
  h = [created Samples.same_millisecond_call; created Samples.first_call]
  ∧ created Samples.same_millisecond_call ≠ created Samples.first_call
  ∧ HistoryItem.id (created Samples.same_millisecond_call)
    = HistoryItem.id (created Samples.first_call)
  ∧ ¬ NoDup (ids h).
Proof.
  cbn zeta. rewrite appends_list. split; [reflexivity |].
  split; [intros Heq; vm_compute in Heq; discriminate Heq |].
  split; [reflexivity |].
  intros Hnd. apply NoDup_cons in Hnd as [Hnin _]. apply Hnin. left.
Qed.

(** C9, as the code has it: the prompt of the created item is the prompt
    argument when that is not empty; for an empty prompt it is the title
    "Phân tích tài liệu" when a non-empty file name comes with it, and
    "Không tiêu đề" otherwise. *)
Theorem created_prompt_defaults (c : Append) (w : World) :
  ∃ it, head (list (run (append c) w)) = Some it
    ∧ (a_prompt c ≠ "" → HistoryItem.prompt it = a_prompt c)
    ∧ (a_prompt c = "" →
       (∃ name, a_fileName c = Some name ∧ name ≠ "") →
       HistoryItem.prompt it = "Phân tích tài liệu")
    ∧ (a_prompt c = "" →
       a_fileName c = None ∨ a_fileName c = Some "" →
       HistoryItem.prompt it = "Không tiêu đề").
Proof.
  exists (created c). rewrite append_list. split; [done |].
  unfold created, newItem. cbn [HistoryItem.prompt].
  split; [| split].
  - intros Hp. apply truthy_spec in Hp. by rewrite Hp.
  - intros -> (name & -> & Hname). apply truthy_spec in Hname.
    cbn [truthy_opt]. by rewrite Hname.
  - by intros -> [-> | ->].
Qed.

Lemma created_prompt_defaults_witness :
  ∃ it, head (list (run (append Samples.first_call) Samples.fresh)) = Some it
    ∧ HistoryItem.prompt it = "Giải thích quang hợp".
Proof.
  destruct (created_prompt_defaults Samples.first_call Samples.fresh)
    as (it & Hhead & Hkeep & _).
  exists it. split; [exact Hhead |]. apply Hkeep. discriminate.
Defined.

(** C9 fails as stated: an empty prompt is not stored as passed. *)
Lemma empty_prompt_not_stored :
  a_prompt Samples.file_only_call = ""
  ∧ HistoryItem.prompt
      <$> head (list (run (append Samples.file_only_call) Samples.fresh))
    = Some "Phân tích tài liệu"
  ∧ HistoryItem.prompt
      <$> head (list (run (append Samples.file_only_call) Samples.fresh))
    ≠ Some (a_prompt Samples.file_only_call).
Proof. rewrite append_list. split; [done | split; [done | discriminate]]. Qed.

Lemma filter_keeps_all {A} (P : A → Prop) `{∀ x, Decision (P x)}
    (l : Datatypes.list A) :
  (∀ x, x ∈ l → P x) → filter P l = l.
Proof.
  induction l as [|x l IH]; intros Hall; [done |].
  rewrite filter_cons, decide_True by (apply Hall; left).
  rewrite IH; [done |]. intros y Hy. apply Hall. by right.
Qed.

(** C3, as the code has it: remove(id) leaves in the list exactly the items
    whose id differs from the given one, in their order: the items with the
    id are deleted and every other item is kept, so no item with that id is
    listed afterwards; when no item has the id the list is as before; a
    second remove of the id changes nothing more.  The call returns no
    boolean: when the browser takes the write it returns nothing and the
    persisted text is that of the new list. *)
Theorem remove_drops_id (i : string) (w : World) :
  let w' := run (remove i) w in
  list w' = filter (λ item, HistoryItem.id item ≠ i) (list w)
  ∧ (∀ it, it ∈ list w → HistoryItem.id it ≠ i → it ∈ list w')
  ∧ (∀ it, it ∈ list w' → HistoryItem.id it ≠ i ∧ it ∈ list w)
  ∧ ((∀ it, it ∈ list w → HistoryItem.id it ≠ i) → list w' = list w)
  ∧ list (run (remove i) w') = list w'
  ∧ (accepts (localStorage w) HISTORY_KEY (JSON_stringify (list w')) = true →
     outcome (remove i) w = Returns ()
     ∧ items (localStorage w') !! HISTORY_KEY = Some (JSON_stringify (list w'))).
Proof.
  cbn zeta. rewrite remove_storage, remove_outcome, !remove_list. cbn zeta.
  set (keep := λ item, HistoryItem.id item ≠ i).
  split; [done |]. split; [| split; [| split; [| split]]].
  - intros it Hin Hid. by apply list_elem_of_filter.
  - intros it Hin. by apply list_elem_of_filter in Hin.
  - apply filter_keeps_all.
  - by apply list_filter_filter_r.
  - intros ->. split; [done |]. cbn [items]. apply lookup_insert_eq.
Qed.

Lemma remove_drops_id_witness :
  let w := Samples.with_history [Samples.item "1" "a"; Samples.item "2" "b"]
             Samples.storage_taking_writes in
  list (run (remove "3") w) = list w
  ∧ outcome (remove "1") w = Returns ()
  ∧ list (run (remove "1") w) = [Samples.item "2" "b"].
Proof.
  cbn zeta.
  set (w := Samples.with_history [Samples.item "1" "a"; Samples.item "2" "b"]
              Samples.storage_taking_writes).
  destruct (remove_drops_id "3" w) as (_ & _ & _ & Hsame & _).
  destruct (remove_drops_id "1" w) as (_ & _ & _ & _ & _ & Hret).
  split; [| split].
  - apply Hsame. intros it Hin.
    apply list_elem_of_In in Hin. simpl in Hin.
    destruct Hin as [<- | [<- | []]]; discriminate.
  - apply Hret. reflexivity.
  - reflexivity.
Defined.

(** C3 fails as stated: the value remove returns is the same whether an
    item was removed or not, so it tells nothing. *)
Lemma remove_returns_no_boolean :
  let w := Samples.with_history [Samples.item "1" "a"]
             Samples.storage_taking_writes in
  outcome (remove "1") w = Returns ()
  ∧ list (run (remove "1") w) = []
  ∧ outcome (remove "1") (run (remove "1") w) = Returns ()
  ∧ list (run (remove "1") (run (remove "1") w)) = list (run (remove "1") w)
  ∧ ¬ ∃ tell : unit → bool,
        (∀ v, outcome (remove "1") w = Returns v → tell v = true)
        ∧ (∀ v, outcome (remove "1") (run (remove "1") w) = Returns v
                → tell v = false).
Proof.
  cbn zeta. repeat (split; [reflexivity |]).
  intros (tell & Hfirst & Hsecond).
  specialize (Hfirst () eq_refl). specialize (Hsecond () eq_refl). congruence.
Qed.

(** C10: one remove(id) deletes every item whose id is the given one, not
    only the first: the list afterwards is the old list without all of
    them, the other items in their order. *)
Theorem remove_deletes_every_match (i : string) (w : World) :
  list (run (remove i) w) = filter (λ item, HistoryItem.id item ≠ i) (list w)
  ∧ (∀ it, it ∈ list w → HistoryItem.id it = i → it ∉ list (run (remove i) w))
  ∧ (∀ it, it ∈ list w → HistoryItem.id it ≠ i → it ∈ list (run (remove i) w))
  ∧ length (filter (λ item, HistoryItem.id item = i) (list (run (remove i) w))) = 0.
Proof.
  rewrite remove_list. split; [done | split; [| split]].
  - intros it _ Hid Hin. by apply list_elem_of_filter in Hin as [? _].
  - intros it Hin Hid. by apply list_elem_of_filter.
  - induction (list w) as [|x h IH]; [done |].
    rewrite filter_cons. case_decide as Hx; [| exact IH].
    rewrite filter_cons. by case_decide.
Qed.

Lemma remove_deletes_every_match_witness :
  let w := Samples.with_history
             [Samples.item "7" "a"; Samples.item "8" "b"; Samples.item "7" "c"]
             Samples.storage_taking_writes in
  list (run (remove "7") w) = [Samples.item "8" "b"]
  ∧ (Samples.item "7" "a" ∉ list (run (remove "7") w))
  ∧ (Samples.item "7" "c" ∉ list (run (remove "7") w))
  ∧ (Samples.item "8" "b" ∈ list (run (remove "7") w)).
Proof.
  cbn zeta.
  set (w := Samples.with_history
              [Samples.item "7" "a"; Samples.item "8" "b"; Samples.item "7" "c"]
              Samples.storage_taking_writes).
  destruct (remove_deletes_every_match "7" w) as (Hlist & Hgone & Hkept & _).
  split; [rewrite Hlist; reflexivity |].
  split; [apply Hgone; [left | reflexivity] |].
  split; [apply Hgone; [right; right; left | reflexivity] |].
  apply Hkept; [right; left | discriminate].
Defined.

(** What the condition of the mount effect lets through. *)
Lemma nonempty_stored (w : World) (saved : string) :
  items (localStorage w) !! HISTORY_KEY = Some saved → saved ≠ "" →
  nonempty (items (localStorage w) !! HISTORY_KEY) = Some saved.
Proof.
  intros -> Hne. apply truthy_spec in Hne. unfold nonempty. cbn. by rewrite Hne.
Qed.

Lemma nonempty_missing (w : World) :
  items (localStorage w) !! HISTORY_KEY = None
  ∨ items (localStorage w) !! HISTORY_KEY = Some "" →
  nonempty (items (localStorage w) !! HISTORY_KEY) = None.
Proof. by intros [-> | ->]. Qed.

Lemma parsed_nonempty (saved : string) (j : JSON.json) :
  JSON.parse saved = Some j → saved ≠ "".
Proof. by intros Hj ->. Qed.

(** C4: the code breaks the claim at a stored value that is JSON but no list
    of items.  With null stored under the key, the mount effect parses it
    without an error, so the catch block does not run and nothing is
    reported, and setHistory is called with it: the history is null, not
    an empty sequence.  The same holds with [1,2], with {} and with 5
    stored.  With a text that is not JSON the same effect does recover:
    the error is caught and reported, and the history stays empty. *)
Theorem stored_null_is_not_emptied :
  JSON.parse "null" = Some JSON.JNull
  ∧ outcome load (Loaded.mounted_over "null") = Foreign JSON.JNull
  ∧ Loaded.history_after load (Loaded.mounted_over "null") = JSON.JNull
  ∧ Loaded.history_after load (Loaded.mounted_over "null")
    ≠ Codec.encode_history []
  ∧ console (run load (Loaded.mounted_over "null")) = []
  ∧ Loaded.history_after load (Loaded.mounted_over "[1,2]")
    = JSON.JArr [JSON.JNum 1 0; JSON.JNum 2 0]
  ∧ Loaded.history_after load (Loaded.mounted_over "{}") = JSON.JObj []
  ∧ Loaded.history_after load (Loaded.mounted_over "5") = JSON.JNum 5 0
  ∧ (outcome load (Loaded.mounted_over "[{oops") = Returns ()
     ∧ Loaded.history_after load (Loaded.mounted_over "[{oops")
       = Codec.encode_history []
     ∧ console (run load (Loaded.mounted_over "[{oops"))
       = [LogMessage "Failed to parse history" SyntaxError]).
Proof.
  split; [reflexivity |]. split; [reflexivity |]. split; [reflexivity |].
  split; [discriminate |]. repeat split; reflexivity.
Qed.

(** C5: when the browser takes the write of an append, reloading the page
    and loading again gives the list the component held after the append:
    the same items, with the same ids, timestamps, prompts, file names and
    results, in the same order. *)
Theorem append_reload_roundtrip (c : Append) (w : World) :
  accepts (localStorage w) HISTORY_KEY (JSON_stringify (created c :: list w))
  = true →
  let w1 := run (append c) w in
  outcome load (reload w1) = Returns ()
  ∧ list (run load (reload w1)) = list w1
  ∧ list w1 = created c :: list w.
Proof.
  intros Hok. cbn zeta.
  assert (Hstored : nonempty (items (localStorage (reload (run (append c) w)))
                              !! HISTORY_KEY)
                    = Some (JSON_stringify (created c :: list w))).
  { unfold reload. cbn [localStorage]. rewrite append_storage, Hok.
    cbn [items]. by rewrite lookup_insert_eq. }
  pose proof (load_present _ _ Hstored) as Hload.
  unfold JSON_stringify in Hload.
  rewrite JSONFacts.parse_stringify, CodecFacts.decode_encode_history in Hload.
  split; [| split].
  - unfold outcome. by rewrite Hload.
  - unfold run at 1. rewrite Hload. by rewrite append_list.
  - apply append_list.
Qed.

Lemma append_reload_roundtrip_witness :
  let w1 := run (append Samples.later_call)
              (run (append Samples.first_call) Samples.fresh) in
  outcome load (reload w1) = Returns ()
  ∧ list (run load (reload w1))
    = [created Samples.later_call; created Samples.first_call].
Proof.
  cbn zeta.
  destruct (append_reload_roundtrip Samples.later_call
              (run (append Samples.first_call) Samples.fresh))
    as (Hret & Hlist & Hnew); [reflexivity |].
  split; [exact Hret |].
  rewrite Hlist, Hnew, append_list. reflexivity.
Defined.

(** The guard of [handleAnalysis] lets a request through when it has a
    prompt or a file. *)
Lemma request_guard (r : State) :
  prompt r ≠ "" ∨ is_Some (file r) →
  negb (truthy (prompt r)) && negb (bool_decide (is_Some (file r))) = false.
Proof.
  intros [Hp | Hf].
  - apply truthy_spec in Hp. by rewrite Hp.
  - rewrite (bool_decide_eq_true_2 _ Hf). apply andb_false_r.
Qed.

(** C8: a request with an empty prompt and no file is rejected with a
    message for the user before the client is called: no request goes to
    the network, and the history and the storage are as they were. *)
Theorem empty_request_rejected (client : AnalysisClient) (t1 t2 : Z) (w : World) :
  prompt (app w) = "" → file (app w) = None →
  let w' := run (clickAnalyze client t1 t2) w in
  outcome (clickAnalyze client t1 t2) w = Returns ()
  ∧ error (app w') = Some "Vui lòng nhập nội dung hoặc tải file lên."
  ∧ network w' = network w
  ∧ list w' = list w
  ∧ localStorage w' = localStorage w
  ∧ loading (app w') = loading (app w)
  ∧ result (app w') = result (app w).
Proof.
  intros Hp Hf. unfold_handlers. rewrite Hp, Hf. done.
Qed.

Lemma empty_request_rejected_witness :
  let w := Samples.with_input "" None Samples.storage_taking_writes in
  let w' := run (clickAnalyze Samples.answering 5 6) w in
  error (app w') = Some "Vui lòng nhập nội dung hoặc tải file lên."
  ∧ network w' = []
  ∧ list w' = [].
Proof.
  cbn zeta.
  destruct (empty_request_rejected Samples.answering 5 6
              (Samples.with_input "" None Samples.storage_taking_writes))
    as (_ & Herr & Hnet & Hlist & _); [reflexivity | reflexivity |].
  split; [exact Herr | split; [exact Hnet | exact Hlist]].
Defined.

(** The world after a request whose analysis fails. *)
Lemma analysis_failed (client : AnalysisClient) (t1 t2 : Z) (w : World) :
  let r := app w in
  let d := nonempty (UploadedFile.data <$> file r) in
  let m := nonempty (UploadedFile.mimeType <$> file r) in
  prompt r ≠ "" ∨ is_Some (file r) →
  client d m (prompt r) = None →
  clickAnalyze client t1 t2 w
  = (Returns (),
     {| app := {| activeTab := activeTab r; file := file r; prompt := prompt r;
                  result := result r; loading := false;
                  error := Some "Có lỗi xảy ra khi phân tích. Vui lòng thử lại.";
                  history := history r |};
        localStorage := localStorage w;
        network := network w ++ [mkRequest d m (prompt r)];
        console := console w ++ [LogValue AnalysisFailure] |}).
Proof.
  cbn zeta. intros Hreq Hans. apply request_guard in Hreq.
  unfold_handlers. by rewrite Hreq, Hans.
Qed.

(** The world after a request whose analysis succeeds. *)
Lemma analysis_answered (client : AnalysisClient) (t1 t2 : Z)
    (a : AnalysisResult.t) (w : World) :
  let r := app w in
  let d := nonempty (UploadedFile.data <$> file r) in
  let m := nonempty (UploadedFile.mimeType <$> file r) in
  let updated := newItem t1 t2 a (prompt r) (UploadedFile.name <$> file r)
                 :: history r in
  prompt r ≠ "" ∨ is_Some (file r) →
  client d m (prompt r) = Some a →
  clickAnalyze client t1 t2 w
  = (Returns (),
     if accepts (localStorage w) HISTORY_KEY (JSON_stringify updated) then
       {| app := {| activeTab := activeTab r; file := file r; prompt := prompt r;
                    result := Some a; loading := false; error := None;
                    history := updated |};
          localStorage := {| items := <[HISTORY_KEY := JSON_stringify updated]>
                                        (items (localStorage w));
                             accepts := accepts (localStorage w) |};
          network := network w ++ [mkRequest d m (prompt r)];
          console := console w |}
     else
       {| app := {| activeTab := activeTab r; file := file r; prompt := prompt r;
                    result := Some a; loading := false;
                    error := Some "Có lỗi xảy ra khi phân tích. Vui lòng thử lại.";
                    history := updated |};
          localStorage := localStorage w;
          network := network w ++ [mkRequest d m (prompt r)];
          console := console w ++ [LogValue QuotaExceededError] |}).
Proof.
  cbn zeta. intros Hreq Hans. apply request_guard in Hreq.
  unfold_handlers. rewrite Hreq, Hans.
  cbn [fst snd app localStorage network console history error loading
       result file prompt activeTab items accepts].
  by destruct (accepts _ _ _).
Qed.

(** C7: a request that passes the guard calls the client once.  When the
    call fails, the history and the storage are as before the request and
    only the error message is set; when it succeeds, one item made from
    the answer is put at the head of the history, and it is what the
    storage holds when the browser takes the write. *)
Theorem analysis_appends_once_or_never
    (client : AnalysisClient) (t1 t2 : Z) (w : World) :
  let r := app w in
  let d := nonempty (UploadedFile.data <$> file r) in
  let m := nonempty (UploadedFile.mimeType <$> file r) in
  let w' := run (clickAnalyze client t1 t2) w in
  prompt r ≠ "" ∨ is_Some (file r) →
  outcome (clickAnalyze client t1 t2) w = Returns ()
  ∧ network w' = network w ++ [mkRequest d m (prompt r)]
  ∧ (client d m (prompt r) = None →
     list w' = list w
     ∧ localStorage w' = localStorage w
     ∧ result (app w') = result r
     ∧ error (app w') = Some "Có lỗi xảy ra khi phân tích. Vui lòng thử lại.")
  ∧ (∀ a, client d m (prompt r) = Some a →
     let updated := newItem t1 t2 a (prompt r) (UploadedFile.name <$> file r)
                    :: list w in
     list w' = updated
     ∧ result (app w') = Some a
     ∧ (accepts (localStorage w) HISTORY_KEY (JSON_stringify updated) = true →
        items (localStorage w') !! HISTORY_KEY = Some (JSON_stringify updated)
        ∧ error (app w') = None)).
Proof.
  cbn zeta. intros Hreq.
  destruct (client _ _ _) as [a|] eqn:Hans.
  - pose proof (analysis_answered client t1 t2 a w Hreq Hans) as Hrun.
    unfold outcome, run, list. rewrite Hrun.
    destruct (accepts _ _ _) eqn:Hw; cbn [fst snd app localStorage network
      history error result items].
    + split; [done |]. split; [done |]. split; [done |].
      intros a' [= <-]. split; [done |]. split; [done |]. intros _.
      split; [apply lookup_insert_eq | done].
    + split; [done |]. split; [done |]. split; [done |].
      intros a' [= <-]. split; [done |]. split; [done |]. congruence.
  - pose proof (analysis_failed client t1 t2 w Hreq Hans) as Hrun.
    unfold outcome, run, list. rewrite Hrun.
    cbn [fst snd app localStorage network history error result].
    split; [done |]. split; [done |]. split; [done |]. done.
Qed.

Lemma analysis_appends_once_or_never_witness :
  let w := Samples.with_input "Giải thích quang hợp" (Some Samples.upload)
             Samples.storage_taking_writes in
  (list (run (clickAnalyze Samples.failing 5 6) w) = []
   ∧ localStorage (run (clickAnalyze Samples.failing 5 6) w) = localStorage w)
  ∧ list (run (clickAnalyze Samples.answering 5 6) w)
    = [newItem 5 6 Samples.photosynthesis "Giải thích quang hợp"
         (Some "bai-5.pdf")].
Proof.
  cbn zeta.
  set (w := Samples.with_input "Giải thích quang hợp" (Some Samples.upload)
              Samples.storage_taking_writes).
  split.
  - destruct (analysis_appends_once_or_never Samples.failing 5 6 w)
      as (_ & _ & Hfail & _); [left; discriminate |].
    destruct Hfail as (Hlist & Hstore & _); [reflexivity |].
    split; [exact Hlist | exact Hstore].
  - destruct (analysis_appends_once_or_never Samples.answering 5 6 w)
      as (_ & _ & _ & Hok); [left; discriminate |].
    destruct (Hok Samples.photosynthesis eq_refl) as (Hlist & _).
    exact Hlist.
Defined.

(** C6, as the code has it: [saveToHistory] and [deleteHistoryItem] do not
    catch a failing write.  The exception leaves them after the list in
    memory has been replaced by the new one, and the storage keeps what it
    held.  For an append made by [handleAnalysis] the catch of that handler
    takes the exception and shows the message of a failed analysis; for
    remove nothing catches it. *)
Theorem write_failure_escapes_store (w : World) :
  (∀ c, accepts (localStorage w) HISTORY_KEY
          (JSON_stringify (created c :: list w)) = false →
     outcome (append c) w = Throws QuotaExceededError
     ∧ list (run (append c) w) = created c :: list w
     ∧ localStorage (run (append c) w) = localStorage w)
  ∧ (∀ i, let updated := filter (λ item, HistoryItem.id item ≠ i) (list w) in
     accepts (localStorage w) HISTORY_KEY (JSON_stringify updated) = false →
     outcome (remove i) w = Throws QuotaExceededError
     ∧ list (run (remove i) w) = updated
     ∧ localStorage (run (remove i) w) = localStorage w)
  ∧ (∀ client t1 t2 a,
     let r := app w in
     let updated := newItem t1 t2 a (prompt r) (UploadedFile.name <$> file r)
                    :: list w in
     let w' := run (clickAnalyze client t1 t2) w in
     prompt r ≠ "" ∨ is_Some (file r) →
     client (nonempty (UploadedFile.data <$> file r))
            (nonempty (UploadedFile.mimeType <$> file r)) (prompt r) = Some a →
     accepts (localStorage w) HISTORY_KEY (JSON_stringify updated) = false →
     outcome (clickAnalyze client t1 t2) w = Returns ()
     ∧ list w' = updated
     ∧ localStorage w' = localStorage w
     ∧ error (app w') = Some "Có lỗi xảy ra khi phân tích. Vui lòng thử lại."
     ∧ console w' = console w ++ [LogValue QuotaExceededError]).
Proof.
  split; [| split].
  - intros c Hfull.
    by rewrite append_outcome, append_list, append_storage, Hfull.
  - intros i updated Hfull. subst updated.
    rewrite remove_outcome, remove_list, remove_storage. cbn zeta.
    by rewrite Hfull.
  - cbn zeta. intros client t1 t2 a Hreq Hans Hfull.
    pose proof (analysis_answered client t1 t2 a w Hreq Hans) as Hrun.
    cbn zeta in Hrun. unfold list in Hfull. rewrite Hfull in Hrun.
    unfold outcome, run, list. by rewrite Hrun.
Qed.

Lemma write_failure_escapes_store_witness :
  let w := Samples.with_history [Samples.item "1" "a"] Samples.storage_over_quota in
  (outcome (append Samples.first_call) w = Throws QuotaExceededError
   ∧ list (run (append Samples.first_call) w)
     = [created Samples.first_call; Samples.item "1" "a"])
  ∧ (outcome (remove "1") w = Throws QuotaExceededError
     ∧ list (run (remove "1") w) = []).
Proof.
  cbn zeta.
  destruct (write_failure_escapes_store
              (Samples.with_history [Samples.item "1" "a"]
                 Samples.storage_over_quota)) as (Happend & Hremove & _).
  split.
  - destruct (Happend Samples.first_call) as (Hout & Hlist & _); [reflexivity |].
    split; [exact Hout | exact Hlist].
  - destruct (Hremove "1") as (Hout & Hlist & _); [reflexivity |].
    split; [exact Hout | exact Hlist].
Defined.

(** C6 fails as stated: with a storage over its quota the exception of the
    write comes out of remove, and out of append, uncaught. *)
Lemma write_failure_uncaught :
  let w := Samples.with_history [Samples.item "1" "a"] Samples.storage_over_quota in
  outcome (remove "1") w = Throws QuotaExceededError
  ∧ outcome (append Samples.first_call) w = Throws QuotaExceededError
  ∧ error (app (run (remove "1") w)) = None.
Proof. cbn zeta. repeat split; reflexivity. Qed.

End HistoryFacts.

(** * Laws of the store *)

Module StoreLaws.
Import App HistoryStore Conditions.
Import HistoryFacts.

(** The world after a request that the guard turns away. *)
Lemma analysis_rejected (client : AnalysisClient) (t1 t2 : Z) (w : World) :
  prompt (app w) = "" → file (app w) = None →
  clickAnalyze client t1 t2 w
  = (Returns (),
     {| app := {| activeTab := activeTab (app w); file := file (app w);
                  prompt := prompt (app w); result := result (app w);
                  loading := loading (app w);
                  error := Some "Vui lòng nhập nội dung hoặc tải file lên.";
                  history := history (app w) |};
        localStorage := localStorage w; network := network w;
        console := console w |}).
Proof.
  intros Hp Hf.
  assert (Hguard : negb (truthy (prompt (app w)))
                   && negb (bool_decide (is_Some (file (app w)))) = true)
    by (by rewrite Hp, Hf).
  unfold_handlers. by rewrite Hguard.
Qed.

(** A request is turned away, or goes out. *)
Lemma request_cases (r : State) :
  (prompt r = "" ∧ file r = None) ∨ (prompt r ≠ "" ∨ is_Some (file r)).
Proof.
  destruct (decide (prompt r = "")) as [Hp | Hp]; [| by right; left].
  destruct (file r) as [f|] eqn:Hf; [right; right; eauto | by left].
Qed.

Lemma created_prompt_nonempty (t1 t2 : Z) (a : AnalysisResult.t)
    (p : string) (f : option string) :
  HistoryItem.prompt (newItem t1 t2 a p f) ≠ "".
Proof.
  unfold newItem. cbn [HistoryItem.prompt].
  destruct (truthy p) eqn:Hp; [by apply truthy_spec |].
  by destruct (truthy_opt f).
Qed.

Lemma load_of_synced (w : World) :
  synced w →
  outcome load (reload w) = Returns ()
  ∧ run load (reload w) = run (setHistory (list w)) (reload w).
Proof.
  intros Hs. unfold synced in Hs.
  assert (Hstored : nonempty (items (localStorage (reload w)) !! HISTORY_KEY)
                    = Some (JSON_stringify (list w))).
  { unfold reload. cbn [localStorage]. by rewrite Hs. }
  unfold outcome, run at 1. rewrite (load_present _ _ Hstored).
  unfold JSON_stringify.
  by rewrite JSONFacts.parse_stringify, CodecFacts.decode_encode_history.
Qed.

(** X1: with pairwise distinct ids, remove(id) of the id of a stored item takes
    exactly that item out: the items before it and after it stay, in their
    order, and the ids stay pairwise distinct. *)
Theorem remove_takes_exactly_one (it : HistoryItem.t) (w : World) :
  NoDup (ids (list w)) → it ∈ list w →
  ∃ before after,
    list w = before ++ it :: after
    ∧ list (run (remove (HistoryItem.id it)) w) = before ++ after
    ∧ length (list (run (remove (HistoryItem.id it)) w)) + 1 = length (list w)
    ∧ NoDup (ids (list (run (remove (HistoryItem.id it)) w))).
Proof.
  intros Hnd Hin. rewrite remove_list.
  destruct (list_elem_of_split _ _ Hin) as (before & after & Hsplit).
  exists before, after. rewrite Hsplit in *. unfold ids in Hnd.
  rewrite fmap_app, fmap_cons in Hnd.
  apply NoDup_app in Hnd as (Hb & Hdisj & Hnd).
  apply NoDup_cons in Hnd as (Hnot & Ha).
  assert (Hkeep : filter (λ item, HistoryItem.id item ≠ HistoryItem.id it) (before ++ it :: after)
                  = before ++ after).
  { rewrite filter_app, filter_cons, decide_False by (intros H; by apply H).
    rewrite !filter_keeps_all; [done | |].
    - intros x Hx Heq. apply Hnot. rewrite <- Heq. by apply list_elem_of_fmap_2.
    - intros x Hx Heq. apply (Hdisj (HistoryItem.id x)).
      + by apply list_elem_of_fmap_2.
      + rewrite Heq. left. }
  rewrite Hkeep. split; [done |]. split; [done |]. split.
  - rewrite !length_app. simpl. lia.
  - unfold ids. rewrite fmap_app. apply NoDup_app. split; [done |].
    split; [| done]. intros x Hx Hx'. apply (Hdisj x Hx). by right.
Qed.

Lemma remove_takes_exactly_one_witness :
  let w := Samples.with_history
             [Samples.item "1" "a"; Samples.item "2" "b"; Samples.item "3" "c"]
             Samples.storage_taking_writes in
  ∃ before after,
    list w = before ++ Samples.item "2" "b" :: after
    ∧ list (run (remove "2") w) = before ++ after.
Proof.
  cbn zeta.
  destruct (remove_takes_exactly_one (Samples.item "2" "b")
              (Samples.with_history
                 [Samples.item "1" "a"; Samples.item "2" "b"; Samples.item "3" "c"]
                 Samples.storage_taking_writes))
    as (before & after & Hw & Hrun & _).
  - refine (bool_decide_unpack _ _). vm_compute. exact I.
  - right. left.
  - exists before, after. split; [exact Hw | exact Hrun].
Defined.

(** X2: remove never adds or reorders: what it leaves is a sublist of the list
    before, no longer than it, and ids that were pairwise distinct stay
    so. *)
Theorem remove_leaves_sublist (i : string) (w : World) :
  list (run (remove i) w) `sublist_of` list w
  ∧ length (list (run (remove i) w)) ≤ length (list w)
  ∧ (NoDup (ids (list w)) → NoDup (ids (list (run (remove i) w)))).
Proof.
  rewrite remove_list.
  pose proof (sublist_filter (λ item, HistoryItem.id item ≠ i) (list w)) as Hsub.
  split; [done |]. split; [by apply sublist_length |].
  intros Hnd. eapply sublist_NoDup; [exact Hnd |].
  unfold ids. by apply fmap_sublist.
Qed.

Lemma remove_leaves_sublist_witness :
  let w := Samples.with_history [Samples.item "1" "a"; Samples.item "2" "b"]
             Samples.storage_taking_writes in
  NoDup (ids (list (run (remove "1") w))).
Proof.
  cbn zeta.
  destruct (remove_leaves_sublist "1"
              (Samples.with_history [Samples.item "1" "a"; Samples.item "2" "b"]
                 Samples.storage_taking_writes)) as (_ & _ & Hnd).
  apply Hnd. refine (bool_decide_unpack _ _). vm_compute. exact I.
Defined.

(** X3: removing the item an append has just created gives the list of before
    the append back, when the id of the new item was not in the store; when
    it was, the stored items with that id go as well. *)
Theorem append_then_remove (c : Append) (w : World) :
  let w' := run (remove (HistoryItem.id (created c))) (run (append c) w) in
  list w' = filter (λ item, HistoryItem.id item ≠ HistoryItem.id (created c)) (list w)
  ∧ (toString (now_id c) ∉ ids (list w) → list w' = list w).
Proof.
  cbn zeta. rewrite remove_list, append_list.
  rewrite filter_cons, decide_False by (intros H; by apply H).
  split; [done |]. intros Hfresh. apply filter_keeps_all.
  intros x Hx Heq. apply Hfresh. unfold ids.
  change (toString (now_id c)) with (HistoryItem.id (created c)).
  rewrite <- Heq. by apply list_elem_of_fmap_2.
Qed.

Lemma append_then_remove_witness :
  list (run (remove (HistoryItem.id (created Samples.later_call)))
          (run (append Samples.later_call)
             (run (append Samples.first_call) Samples.fresh)))
  = [created Samples.first_call].
Proof.
  destruct (append_then_remove Samples.later_call
              (run (append Samples.first_call) Samples.fresh)) as (_ & Hback).
  rewrite Hback; [by rewrite append_list |].
  rewrite append_list. refine (bool_decide_unpack _ _). vm_compute. exact I.
Defined.

(** X4: two removes give the same list in either order. *)
Theorem remove_commutes (i j : string) (w : World) :
  list (run (remove j) (run (remove i) w))
  = list (run (remove i) (run (remove j) w)).
Proof.
  rewrite !remove_list, !list_filter_filter.
  apply list_filter_iff. intros x. tauto.
Qed.

Lemma append_written (c : Append) (w : World) :
  localStorage (run (append c) w)
  = written (list (run (append c) w)) (localStorage w).
Proof. by rewrite append_storage, append_list. Qed.

Lemma remove_written (i : string) (w : World) :
  localStorage (run (remove i) w)
  = written (list (run (remove i) w)) (localStorage w).
Proof. by rewrite remove_storage, remove_list. Qed.

Lemma written_stored (h : Datatypes.list HistoryItem.t) (s : Storage) :
  accepts s HISTORY_KEY (JSON_stringify h) = true →
  items (written h s) !! HISTORY_KEY = Some (JSON_stringify h).
Proof. intros Hok. unfold written. rewrite Hok. apply lookup_insert_eq. Qed.

Lemma written_refused (h : Datatypes.list HistoryItem.t) (s : Storage) :
  accepts s HISTORY_KEY (JSON_stringify h) = false → written h s = s.
Proof. intros Hno. unfold written. by rewrite Hno. Qed.

Lemma written_other_keys (h : Datatypes.list HistoryItem.t) (s : Storage) (k : string) :
  k ≠ HISTORY_KEY → items (written h s) !! k = items s !! k.
Proof.
  intros Hk. unfold written. destruct (accepts _ _ _); [| done].
  cbn [items]. by rewrite lookup_insert_ne.
Qed.

Lemma written_accepts (h : Datatypes.list HistoryItem.t) (s : Storage) :
  accepts (written h s) = accepts s.
Proof. unfold written. by destruct (accepts _ _ _). Qed.

(** X5: two lists with the same persisted text are the same list: the text
    under the history key loses nothing of the items. *)
Theorem persisted_text_determines_list (h1 h2 : Datatypes.list HistoryItem.t) :
  JSON_stringify h1 = JSON_stringify h2 → h1 = h2.
Proof.
  unfold JSON_stringify. intros Heq.
  apply (f_equal JSON.parse) in Heq.
  rewrite !JSONFacts.parse_stringify in Heq. apply (inj Some) in Heq.
  apply (f_equal Codec.decode_history) in Heq.
  rewrite !CodecFacts.decode_encode_history in Heq. by apply (inj Some) in Heq.
Qed.

Lemma persisted_text_determines_list_witness :
  JSON_stringify [Samples.item "1" "a"] ≠ JSON_stringify [Samples.item "1" "b"].
Proof.
  intros Heq. apply persisted_text_determines_list in Heq. discriminate Heq.
Defined.

(** X6: when the storage holds the text of the list in memory, a reload of the
    page followed by the mount effect gives that list back, and the storage
    still holds its text. *)
Theorem synced_list_survives_reload (w : World) :
  synced w →
  outcome load (reload w) = Returns ()
  ∧ list (run load (reload w)) = list w
  ∧ synced (run load (reload w)).
Proof.
  intros Hs. destruct (load_of_synced w Hs) as (Hout & Hrun).
  rewrite Hrun. split; [exact Hout |]. split; [done |]. exact Hs.
Qed.

Lemma synced_list_survives_reload_witness :
  list (run load (reload (run (append Samples.first_call) Samples.fresh)))
  = [created Samples.first_call].
Proof.
  destruct (synced_list_survives_reload
              (run (append Samples.first_call) Samples.fresh))
    as (_ & Hlist & _); [reflexivity |].
  rewrite Hlist. apply append_list.
Defined.

(** X7: a removal whose write the browser takes stays after a reload: the list
    loaded again is the list without the removed items. *)
Theorem remove_reload_roundtrip (i : string) (w : World) :
  let updated := filter (λ item, HistoryItem.id item ≠ i) (list w) in
  accepts (localStorage w) HISTORY_KEY (JSON_stringify updated) = true →
  outcome load (reload (run (remove i) w)) = Returns ()
  ∧ list (run load (reload (run (remove i) w))) = updated
  ∧ (∀ it, it ∈ list (run load (reload (run (remove i) w))) →
     HistoryItem.id it ≠ i).
Proof.
  cbn zeta. intros Hok.
  assert (Hs : synced (run (remove i) w)).
  { unfold synced. rewrite remove_written, remove_list. by apply written_stored. }
  destruct (load_of_synced _ Hs) as (Hout & Hrun). rewrite Hrun.
  change (list (run (setHistory (list (run (remove i) w)))
                  (reload (run (remove i) w))))
    with (list (run (remove i) w)).
  rewrite remove_list. split; [exact Hout |]. split; [done |].
  intros it Hin. by apply list_elem_of_filter in Hin as [? _].
Qed.

Lemma remove_reload_roundtrip_witness :
  let w := Samples.with_history [Samples.item "1" "a"; Samples.item "2" "b"]
             Samples.storage_taking_writes in
  list (run load (reload (run (remove "1") w))) = [Samples.item "2" "b"].
Proof.
  cbn zeta.
  destruct (remove_reload_roundtrip "1"
              (Samples.with_history [Samples.item "1" "a"; Samples.item "2" "b"]
                 Samples.storage_taking_writes)) as (_ & Hlist & _);
    [reflexivity |].
  rewrite Hlist. reflexivity.
Defined.

(** X8: a change whose write the browser refuses does not survive a reload:
    from a world whose storage holds the text of its list, an append or a
    remove with a refused write is followed, after a reload, by the list of
    before the change. *)
Theorem refused_write_lost_on_reload (w : World) :
  synced w →
  (∀ c, accepts (localStorage w) HISTORY_KEY
          (JSON_stringify (created c :: list w)) = false →
     list (run (append c) w) = created c :: list w
     ∧ list (run load (reload (run (append c) w))) = list w)
  ∧ (∀ i, accepts (localStorage w) HISTORY_KEY
            (JSON_stringify (filter (λ item, HistoryItem.id item ≠ i) (list w)))
          = false →
     list (run load (reload (run (remove i) w))) = list w).
Proof.
  intros Hs.
  assert (Hload : ∀ v, localStorage v = localStorage w →
                       list (run load (reload v)) = list w).
  { intros v Hv.
    assert (Hstored : nonempty (items (localStorage (reload v)) !! HISTORY_KEY)
                      = Some (JSON_stringify (list w))).
    { unfold reload. cbn [localStorage]. rewrite Hv. unfold synced in Hs.
      by rewrite Hs. }
    unfold run. rewrite (load_present _ _ Hstored). unfold JSON_stringify.
    by rewrite JSONFacts.parse_stringify, CodecFacts.decode_encode_history. }
  split.
  - intros c Hno. split; [apply append_list |]. apply Hload.
    rewrite append_written, append_list. by apply written_refused.
  - intros i Hno. apply Hload.
    rewrite remove_written, remove_list. by apply written_refused.
Qed.

Lemma refused_write_lost_on_reload_witness :
  let w := Samples.with_history [] Samples.storage_over_quota in
  let w0 := {| app := app w;
               localStorage := {| items := {[ HISTORY_KEY := JSON_stringify [] ]};
                                  accepts := λ _ _, false |};
               network := []; console := [] |} in
  list (run (append Samples.first_call) w0) = [created Samples.first_call]
  ∧ list (run load (reload (run (append Samples.first_call) w0))) = [].
Proof.
  cbn zeta.
  set (w0 := {| app := app (Samples.with_history [] Samples.storage_over_quota);
                localStorage := {| items := {[ HISTORY_KEY := JSON_stringify [] ]};
                                   accepts := λ _ _, false |};
                network := []; console := [] |}).
  destruct (refused_write_lost_on_reload w0) as (Happend & _); [reflexivity |].
  apply (Happend Samples.first_call). reflexivity.
Defined.

(** X9: the mount effect writes nothing and calls nothing: whatever the storage
    holds, it leaves the storage, the network and every state variable but
    the history as they are.  What it adds to the console follows from the
    stored text: one entry, "Failed to parse history" with the error of the
    parse, when a non-empty text is stored that is not JSON, the history
    staying as it was; nothing when the text is JSON, which becomes the
    history as parsed; nothing when no text or the empty text is stored,
    the history staying as it was. *)
Theorem load_changes_history_only (w : World) :
  let w' := run load w in
  localStorage w' = localStorage w
  ∧ network w' = network w
  ∧ (file (app w'), prompt (app w'), result (app w'), loading (app w'),
     error (app w'), activeTab (app w'))
    = (file (app w), prompt (app w), result (app w), loading (app w),
       error (app w), activeTab (app w))
  ∧ (∀ saved, items (localStorage w) !! HISTORY_KEY = Some saved →
     saved ≠ "" → JSON.parse saved = None →
     console w' = console w ++ [LogMessage "Failed to parse history" SyntaxError]
     ∧ list w' = list w)
  ∧ (∀ saved j, items (localStorage w) !! HISTORY_KEY = Some saved →
     JSON.parse saved = Some j →
     console w' = console w ∧ Loaded.history_after load w = j)
  ∧ (items (localStorage w) !! HISTORY_KEY = None
     ∨ items (localStorage w) !! HISTORY_KEY = Some "" →
     console w' = console w ∧ list w' = list w).
Proof.
  cbn zeta. split; [| split; [| split; [| split; [| split]]]].
  1-3: unfold run;
    destruct (nonempty (items (localStorage w) !! HISTORY_KEY)) as [saved|] eqn:Hs;
    [ rewrite (load_present w saved Hs);
      destruct (JSON.parse saved) as [j|];
      [ by destruct (Codec.decode_history j) | done ]
    | by rewrite (load_absent w Hs) ].
  - intros saved Hsaved Hne Hbad. unfold run, list.
    by rewrite (load_present w saved (nonempty_stored w saved Hsaved Hne)), Hbad.
  - intros saved j Hsaved Hj.
    pose proof (load_present w saved
                  (nonempty_stored w saved Hsaved (parsed_nonempty _ _ Hj)))
      as Hload.
    rewrite Hj in Hload. unfold Loaded.history_after, outcome, run.
    rewrite Hload.
    destruct (Codec.decode_history j) as [h|] eqn:Hh; [| done].
    cbn. split; [done |]. by apply CodecFacts.encode_decode_history.
  - intros Hmissing. unfold run, list.
    by rewrite (load_absent w (nonempty_missing w Hmissing)).
Qed.

Lemma load_changes_history_only_witness :
  (console (run load (reload (Samples.with_history [] Samples.storage_corrupt)))
   = [LogMessage "Failed to parse history" SyntaxError])
  ∧ (console (run load (Loaded.mounted_over "[1,2]")) = []
     ∧ Loaded.history_after load (Loaded.mounted_over "[1,2]")
       = JSON.JArr [JSON.JNum 1 0; JSON.JNum 2 0])
  ∧ (console (run load Samples.fresh) = []
     ∧ list (run load Samples.fresh) = []).
Proof.
  split; [| split].
  - destruct (load_changes_history_only
                (reload (Samples.with_history [] Samples.storage_corrupt)))
      as (_ & _ & _ & Hbad & _).
    destruct (Hbad "[{oops") as (Hlog & _);
      [reflexivity | discriminate | reflexivity |].
    exact Hlog.
  - destruct (load_changes_history_only (Loaded.mounted_over "[1,2]"))
      as (_ & _ & _ & _ & Hparsed & _).
    apply (Hparsed "[1,2]"); reflexivity.
  - destruct (load_changes_history_only Samples.fresh)
      as (_ & _ & _ & _ & _ & Hmissing).
    apply Hmissing. left. reflexivity.
Defined.

(** X22: the mount effect lets no exception out, whatever is stored.  On a
    freshly mounted component the history stays the empty sequence when
    nothing is stored under the key, and also when the stored text is not
    JSON: the error of the parse is caught and reported on the console.  A
    stored text that is JSON becomes the history as parsed, with no check
    of its structure: the items when it is laid out as a list of items,
    and the value itself when it is anything else. *)
Theorem load_keeps_what_parses (w : World) :
  (∀ e, outcome load w ≠ Throws e)
  ∧ (list w = [] → items (localStorage w) !! HISTORY_KEY = None →
     outcome load w = Returns () ∧ list (run load w) = []
     ∧ Loaded.history_after load w = JSON.JArr [])
  ∧ (∀ saved, list w = [] →
     items (localStorage w) !! HISTORY_KEY = Some saved →
     JSON.parse saved = None →
     outcome load w = Returns () ∧ list (run load w) = []
     ∧ Loaded.history_after load w = JSON.JArr []
     ∧ localStorage (run load w) = localStorage w
     ∧ (saved ≠ "" →
        console (run load w)
        = console w ++ [LogMessage "Failed to parse history" SyntaxError]))
  ∧ (∀ saved j,
     items (localStorage w) !! HISTORY_KEY = Some saved →
     JSON.parse saved = Some j →
     Loaded.history_after load w = j
     ∧ console (run load w) = console w
     ∧ (∀ h, Codec.decode_history j = Some h →
        outcome load w = Returns () ∧ list (run load w) = h)
     ∧ (Codec.decode_history j = None → outcome load w = Foreign j)).
Proof.
  split; [| split; [| split]].
  - intros e. unfold outcome.
    destruct (nonempty (items (localStorage w) !! HISTORY_KEY)) as [saved|] eqn:Hs.
    + rewrite (load_present w saved Hs).
      destruct (JSON.parse saved) as [j|]; [| done].
      by destruct (Codec.decode_history j).
    + by rewrite (load_absent w Hs).
  - intros Hempty Hnone. unfold Loaded.history_after, outcome, run.
    rewrite load_absent by (by rewrite Hnone). cbn [fst snd].
    unfold list in Hempty. by rewrite Hempty.
  - intros saved Hempty Hsaved Hbad.
    unfold Loaded.history_after, outcome, run. unfold list in *.
    destruct (decide (saved = "")) as [-> | Hne].
    + rewrite load_absent by (apply nonempty_missing; by right).
      cbn [fst snd]. by rewrite Hempty.
    + rewrite (load_present w saved (nonempty_stored w saved Hsaved Hne)), Hbad.
      cbn [fst snd app console localStorage history]. by rewrite Hempty.
  - intros saved j Hsaved Hj.
    pose proof (load_present w saved
                  (nonempty_stored w saved Hsaved (parsed_nonempty _ _ Hj)))
      as Hload.
    rewrite Hj in Hload.
    assert (Hvalue : Loaded.history_after load w = j).
    { unfold Loaded.history_after, outcome, run. rewrite Hload.
      destruct (Codec.decode_history j) as [h|] eqn:Hh; [| done].
      cbn. by apply CodecFacts.encode_decode_history. }
    split; [exact Hvalue |]. split; [| split].
    + unfold run. rewrite Hload. by destruct (Codec.decode_history j).
    + intros h Hh. unfold outcome, run. rewrite Hload, Hh. done.
    + intros Hh. unfold outcome. by rewrite Hload, Hh.
Qed.

Lemma load_keeps_what_parses_witness :
  (outcome load Samples.fresh = Returns ()
   ∧ list (run load Samples.fresh) = [])
  ∧ (outcome load (reload (Samples.with_history [] Samples.storage_corrupt))
     = Returns ()
     ∧ list (run load (reload (Samples.with_history [] Samples.storage_corrupt)))
       = [])
  ∧ Loaded.history_after load (Loaded.mounted_over "{}") = JSON.JObj []
  ∧ list (run load (Loaded.mounted_over (JSON_stringify [Samples.item "1" "a"])))
    = [Samples.item "1" "a"].
Proof.
  split; [| split; [| split]].
  - destruct (load_keeps_what_parses Samples.fresh) as (_ & Habsent & _).
    destruct Habsent as (Hret & Hlist & _); [reflexivity | reflexivity |].
    split; [exact Hret | exact Hlist].
  - destruct (load_keeps_what_parses
                (reload (Samples.with_history [] Samples.storage_corrupt)))
      as (_ & _ & Hcorrupt & _).
    destruct (Hcorrupt "[{oops") as (Hret & Hlist & _);
      [reflexivity | reflexivity | reflexivity |].
    split; [exact Hret | exact Hlist].
  - destruct (load_keeps_what_parses (Loaded.mounted_over "{}"))
      as (_ & _ & _ & Hparsed).
    destruct (Hparsed "{}" (JSON.JObj [])) as (Hvalue & _);
      [reflexivity | reflexivity |].
    exact Hvalue.
  - destruct (load_keeps_what_parses
                (Loaded.mounted_over (JSON_stringify [Samples.item "1" "a"])))
      as (_ & _ & _ & Hparsed).
    destruct (Hparsed (JSON_stringify [Samples.item "1" "a"])
                (Codec.encode_history [Samples.item "1" "a"]))
      as (_ & _ & Hitems & _); [reflexivity | vm_compute; reflexivity |].
    destruct (Hitems [Samples.item "1" "a"]) as (_ & Hlist);
      [vm_compute; reflexivity | exact Hlist].
Defined.

End StoreLaws.

(** * Sessions: events of the page, one after the other *)

Module SessionFacts.
Import App HistoryStore Conditions FileInput UI.
Import HistoryFacts StoreLaws.

(** Unfolds the handlers that only set state variables. *)
Ltac unfold_setters :=
  unfold run, list, loadFromHistory, handleFileChange, reader_onload,
    setActiveTab, setPrompt, setFile, setResult, modify_app,
    mbind, M_bind, mret, M_ret in *;
  cbn [fst snd app localStorage network console history error loading
       result file prompt activeTab] in *.

(** What the handlers of the file input, when the embedding covers them, do
    to the world: they set the file and clear the result, or do nothing. *)
Lemma handleFileChange_world (files : option (Datatypes.list File))
    (reader_result : string) (m : M unit) (w : World) :
  handleFileChange files reader_result = Some m →
  run m w = w
  ∨ ∃ f, run m w
         = {| app := {| activeTab := activeTab (app w); file := Some f;
                        prompt := prompt (app w); result := None;
                        loading := loading (app w); error := error (app w);
                        history := history (app w) |};
              localStorage := localStorage w; network := network w;
              console := console w |}.
Proof.
  unfold handleFileChange, reader_onload.
  destruct (files ≫= head) as [selected|].
  - destruct (split_comma reader_result !! 1) as [b|]; [| done].
    intros [= <-]. right. eexists. reflexivity.
  - intros [= <-]. left. by destruct w.
Qed.

(** What one event does to the list and to the storage: nothing, or the
    removal of the items with the id of a listed item, or one new item at
    the head; a changed list is written under the history key. *)
Lemma dispatch_store (e : Event) (w w' : World) :
  dispatch e w = Some w' →
  (list w' = list w ∧ localStorage w' = localStorage w)
  ∨ (localStorage w' = written (list w') (localStorage w)
     ∧ ((∃ item, e = DeleteClicked item ∧ item ∈ list w
         ∧ list w' = filter (λ x, HistoryItem.id x ≠ HistoryItem.id item) (list w))
        ∨ (∃ client t1 t2 a, e = AnalyzeClicked client t1 t2
           ∧ list w' = newItem t1 t2 a (prompt (app w))
                         (UploadedFile.name <$> file (app w)) :: list w))).
Proof.
  unfold dispatch. destruct (offered (app w) e) eqn:Hoff; [| done].
  destruct e as [tab | item | item | files url | value | client t1 t2];
    cbn [handler fmap option_fmap option_map].
  - intros [= <-]. left. by unfold_setters.
  - intros [= <-]. left. by unfold_setters.
  - intros [= <-]. right.
    change (run (deleteHistoryItem (app w) (HistoryItem.id item)) w)
      with (run (remove (HistoryItem.id item)) w).
    split; [apply remove_written |]. left. exists item.
    split; [done |]. split; [| apply remove_list].
    cbn [offered] in Hoff. apply andb_true_iff in Hoff as [_ Hin].
    by apply bool_decide_eq_true in Hin.
  - destruct (handleFileChange files url) as [m|] eqn:Hm; [| done].
    intros [= <-]. left.
    destruct (handleFileChange_world files url m w Hm) as [-> | (f & ->)]; done.
  - intros [= <-]. left. by unfold_setters.
  - intros [= <-].
    change (run (ensureKeyAndRun (handleAnalysis (app w) client t1 t2)) w)
      with (run (clickAnalyze client t1 t2) w).
    destruct (request_cases (app w)) as [[Hp Hf] | Hreq].
    + left. unfold run. by rewrite (analysis_rejected client t1 t2 w Hp Hf).
    + destruct (client (nonempty (UploadedFile.data <$> file (app w)))
                  (nonempty (UploadedFile.mimeType <$> file (app w)))
                  (prompt (app w))) as [a|] eqn:Hans.
      * right. unfold run.
        rewrite (analysis_answered client t1 t2 a w Hreq Hans).
        unfold written, list. cbn [snd].
        destruct (accepts _ _ _) eqn:Hacc; cbn [app localStorage history];
          rewrite Hacc; (split; [done |]); right; by exists client, t1, t2, a.
      * left. unfold run. by rewrite (analysis_failed client t1 t2 w Hreq Hans).
Qed.

Lemma session_ind (P : World → Prop) :
  (∀ e w w', dispatch e w = Some w' → P w → P w') →
  ∀ es w w', dispatch_all es w = Some w' → P w → P w'.
Proof.
  intros Hstep es. induction es as [|e es IH]; intros w w' Hrun Hw.
  - by injection Hrun as <-.
  - cbn [dispatch_all] in Hrun.
    destruct (dispatch e w) as [w1|] eqn:He; [| done].
    cbn in Hrun. eapply IH; [exact Hrun |]. by eapply Hstep.
Qed.

(** X10: through a whole session every listed item keeps a prompt to show: an
    analysis stores the typed prompt or, for an empty one, a title, and
    nothing else adds an item. *)
Theorem session_keeps_titles (es : Datatypes.list Event) (w w' : World) :
  dispatch_all es w = Some w' → titled (list w) → titled (list w').
Proof.
  apply (session_ind (λ v, titled (list v))). clear. intros e w w' He Hw.
  destruct (dispatch_store e w w' He)
    as [[-> _] | (_ & [(item & _ & _ & ->) | (client & t1 & t2 & a & _ & ->)])].
  - done.
  - unfold titled in *. rewrite Forall_forall in *.
    intros x Hx. apply list_elem_of_filter in Hx as [_ Hx]. by apply Hw.
  - apply Forall_cons. split; [apply created_prompt_nonempty | done].
Qed.

Lemma session_keeps_titles_witness :
  ∃ w', dispatch_all Session.events Samples.fresh = Some w' ∧ titled (list w').
Proof.
  eexists. split; [vm_compute; reflexivity |].
  eapply (session_keeps_titles Session.events Samples.fresh).
  - vm_compute. reflexivity.
  - apply Forall_nil_2.
Defined.

(** X11: a session writes one key only: every other entry of the storage is at
    the end what it was at the start. *)
Theorem session_writes_one_key (es : Datatypes.list Event) (w w' : World) (k : string) :
  dispatch_all es w = Some w' → k ≠ HISTORY_KEY →
  items (localStorage w') !! k = items (localStorage w) !! k.
Proof.
  intros Hrun Hk. revert Hrun.
  assert (Hgoal : dispatch_all es w = Some w' →
                  items (localStorage w) !! k = items (localStorage w) !! k →
                  items (localStorage w') !! k = items (localStorage w) !! k);
    [| by intros Hrun; apply Hgoal].
  apply (session_ind (λ v, items (localStorage v) !! k
                           = items (localStorage w) !! k)).
  intros e v v' He Hv.
  destruct (dispatch_store e v v' He) as [[_ ->] | (-> & _)]; [done |].
  by rewrite written_other_keys.
Qed.

Lemma session_writes_one_key_witness :
  ∃ w', dispatch_all Session.events Samples.fresh = Some w'
        ∧ items (localStorage w') !! "theme" = None.
Proof.
  eexists. split; [vm_compute; reflexivity |].
  rewrite (session_writes_one_key Session.events Samples.fresh _ "theme");
    [reflexivity | vm_compute; reflexivity | discriminate].
Defined.

Lemma load_of_mirrored (w : World) :
  mirrored w →
  outcome load (reload w) = Returns () ∧ list (run load (reload w)) = list w.
Proof.
  intros [Hs | [Hnone Hempty]].
  - destruct (load_of_synced w Hs) as (Hout & Hload). by rewrite Hload.
  - assert (Habsent : nonempty (items (localStorage (reload w)) !! HISTORY_KEY)
                      = None) by (unfold reload; cbn [localStorage]; by rewrite Hnone).
    unfold outcome, run. rewrite (load_absent _ Habsent). by rewrite Hempty.
Qed.

(** X12: with a browser that takes every write, the storage follows the list
    through a whole session, so that a reload at the end gives the list of
    the end back. *)
Theorem session_survives_reload (es : Datatypes.list Event) (w w' : World) :
  dispatch_all es w = Some w' →
  roomy (localStorage w) → mirrored w →
  mirrored w'
  ∧ outcome load (reload w') = Returns ()
  ∧ list (run load (reload w')) = list w'.
Proof.
  intros Hrun Hroomy Hmirrored.
  assert (Hend : roomy (localStorage w') ∧ mirrored w').
  { apply (session_ind (λ v, roomy (localStorage v) ∧ mirrored v)) with es w;
      [| done | done].
    clear. intros e w w' He [Hroomy Hmirrored].
    destruct (dispatch_store e w w' He) as [[Hl Hs] | (Hs & _)].
    - unfold mirrored, synced. rewrite Hl, Hs. done.
    - split.
      + intros k v. rewrite Hs, written_accepts. apply Hroomy.
      + left. unfold synced. rewrite Hs. apply written_stored, Hroomy. }
  destruct Hend as [_ Hm']. split; [exact Hm' |]. by apply load_of_mirrored.
Qed.

Lemma session_survives_reload_witness :
  ∃ w', dispatch_all Session.events Samples.fresh = Some w'
        ∧ list (run load (reload w')) = list w'.
Proof.
  eexists. split; [vm_compute; reflexivity |].
  eapply (session_survives_reload Session.events Samples.fresh).
  - vm_compute. reflexivity.
  - intros k v. reflexivity.
  - right. split; reflexivity.
Defined.

(** X13: a click on the delete button of a card takes that card out: the list
    gets shorter and no longer has the item. *)
Theorem delete_click_shortens (item : HistoryItem.t) (w w' : World) :
  dispatch (DeleteClicked item) w = Some w' →
  item ∈ list w
  ∧ (item ∉ list w')
  ∧ length (list w') < length (list w).
Proof.
  unfold dispatch. destruct (offered (app w) (DeleteClicked item)) eqn:Hoff;
    [| done].
  cbn [handler fmap option_fmap option_map]. intros [= <-].
  change (run (deleteHistoryItem (app w) (HistoryItem.id item)) w)
    with (run (remove (HistoryItem.id item)) w).
  cbn [offered] in Hoff. apply andb_true_iff in Hoff as [_ Hin].
  apply bool_decide_eq_true in Hin. change (item ∈ list w) in Hin.
  rewrite remove_list. split; [done |]. split.
  - intros Hx. apply list_elem_of_filter in Hx as [Hx _]. by apply Hx.
  - apply (length_filter_lt _ _ item); [done |]. intros Hx. by apply Hx.
Qed.

Lemma delete_click_shortens_witness :
  let w := Samples.with_history [Samples.item "1" "a"; Samples.item "2" "b"]
             Samples.storage_taking_writes in
  ∃ w', dispatch (DeleteClicked (Samples.item "2" "b")) w = Some w'
        ∧ length (list w') < 2.
Proof.
  cbn zeta. eexists. split; [vm_compute; reflexivity |].
  eapply (delete_click_shortens (Samples.item "2" "b")
            (Samples.with_history [Samples.item "1" "a"; Samples.item "2" "b"]
               Samples.storage_taking_writes)).
  vm_compute. reflexivity.
Defined.

Lemma analysis_ids_sublist (e : Event) (es : Datatypes.list Event) :
  analysis_ids es `sublist_of` analysis_ids (e :: es).
Proof. destruct e; cbn [analysis_ids]; try done. by apply sublist_cons. Qed.

(** X14: when the clock readings of the analyses of a session have pairwise
    distinct texts, none of them the id of an item already stored, and the
    stored ids are pairwise distinct, the ids are pairwise distinct at the
    end of the session. *)
Theorem session_ids_distinct (es : Datatypes.list Event) (w w' : World) :
  dispatch_all es w = Some w' →
  NoDup (ids (list w) ++ analysis_ids es) →
  NoDup (ids (list w')).
Proof.
  revert w. induction es as [|e es IH]; intros w Hrun Hnd.
  - injection Hrun as <-. cbn [analysis_ids] in Hnd. by rewrite app_nil_r in Hnd.
  - cbn [dispatch_all] in Hrun.
    destruct (dispatch e w) as [w1|] eqn:He; [| done]. cbn in Hrun.
    apply (IH w1 Hrun).
    destruct (dispatch_store e w w1 He)
      as [[-> _] | (_ & [(item & _ & _ & ->) | (client & t1 & t2 & a & -> & ->)])].
    + eapply sublist_NoDup; [exact Hnd |].
      apply sublist_app; [done | apply analysis_ids_sublist].
    + eapply sublist_NoDup; [exact Hnd |].
      apply sublist_app; [| apply analysis_ids_sublist].
      unfold ids. apply fmap_sublist, sublist_filter.
    + cbn [analysis_ids] in Hnd. unfold ids in *. rewrite fmap_cons.
      cbn [newItem HistoryItem.id].
      by rewrite <- Permutation_middle in Hnd.
Qed.

Lemma session_ids_distinct_witness :
  ∃ w', dispatch_all Session.events Samples.fresh = Some w'
        ∧ NoDup (ids (list w')).
Proof.
  eexists. split; [vm_compute; reflexivity |].
  eapply (session_ids_distinct Session.events Samples.fresh).
  - vm_compute. reflexivity.
  - refine (bool_decide_unpack _ _). vm_compute. exact I.
Defined.

(** What one event does to the loading flag and to the network: the flag
    is after the event what it was before, and only an analysis reaches the
    network. *)
Lemma dispatch_rest (e : Event) (w w' : World) :
  dispatch e w = Some w' →
  loading (app w') = loading (app w)
  ∧ ((∃ client t1 t2, e = AnalyzeClicked client t1 t2) ∨ network w' = network w).
Proof.
  unfold dispatch. destruct (offered (app w) e) eqn:Hoff; [| done].
  destruct e as [tab | item | item | files url | value | client t1 t2];
    cbn [handler fmap option_fmap option_map].
  - intros [= <-]. by unfold_setters; auto.
  - intros [= <-]. by unfold_setters; auto.
  - intros [= <-]. unfold_handlers. destruct (accepts _ _ _); auto.
  - destruct (handleFileChange files url) as [m|] eqn:Hm; [| done].
    intros [= <-].
    destruct (handleFileChange_world files url m w Hm) as [-> | (f & ->)]; auto.
  - intros [= <-]. by unfold_setters; auto.
  - intros [= <-]. split; [| by eauto].
    change (run (ensureKeyAndRun (handleAnalysis (app w) client t1 t2)) w)
      with (run (clickAnalyze client t1 t2) w).
    cbn [offered] in Hoff. apply andb_true_iff in Hoff as [_ Hidle].
    apply negb_true_iff in Hidle.
    destruct (request_cases (app w)) as [[Hp Hf] | Hreq].
    + unfold run. by rewrite (analysis_rejected client t1 t2 w Hp Hf).
    + destruct (client (nonempty (UploadedFile.data <$> file (app w)))
                  (nonempty (UploadedFile.mimeType <$> file (app w)))
                  (prompt (app w))) as [a|] eqn:Hans.
      * unfold run. rewrite (analysis_answered client t1 t2 a w Hreq Hans).
        cbn [snd]. by destruct (accepts _ _ _).
      * unfold run. by rewrite (analysis_failed client t1 t2 w Hreq Hans).
Qed.

(** X15: every analysis, answered, failed or turned away, ends with the loading
    flag lowered: a session that starts idle ends idle, and the analysis
    button is then offered under the study tab. *)
Theorem session_ends_idle (es : Datatypes.list Event) (w w' : World) :
  dispatch_all es w = Some w' → loading (app w) = false →
  loading (app w') = false
  ∧ ∀ client t1 t2,
      offered (app w') (AnalyzeClicked client t1 t2)
      = bool_decide (activeTab (app w') = study).
Proof.
  intros Hrun Hidle.
  assert (Hend : loading (app w') = false).
  { apply (session_ind (λ v, loading (app v) = false)) with es w; [| done | done].
    intros e v v' He Hv. destruct (dispatch_rest e v v' He) as [-> _]. done. }
  split; [done |]. intros client t1 t2. cbn [offered]. rewrite Hend.
  apply andb_true_r.
Qed.

Lemma session_ends_idle_witness :
  ∃ w', dispatch_all Session.events Samples.fresh = Some w'
        ∧ loading (app w') = false.
Proof.
  eexists. split; [vm_compute; reflexivity |].
  eapply (session_ends_idle Session.events Samples.fresh).
  - vm_compute. reflexivity.
  - reflexivity.
Defined.

(** X16: a session without a click on the analysis button sends nothing to the
    service and adds nothing to the list. *)
Theorem session_without_analysis (es : Datatypes.list Event) (w w' : World) :
  dispatch_all es w = Some w' →
  Forall (λ e, ∀ client t1 t2, e ≠ AnalyzeClicked client t1 t2) es →
  network w' = network w
  ∧ list w' `sublist_of` list w.
Proof.
  revert w. induction es as [|e es IH]; intros w Hrun Hno.
  - by injection Hrun as <-.
  - cbn [dispatch_all] in Hrun.
    destruct (dispatch e w) as [w1|] eqn:He; [| done]. cbn in Hrun.
    apply Forall_cons in Hno as [Hne Hno].
    destruct (IH w1 Hrun Hno) as [Hnet Hsub].
    destruct (dispatch_rest e w w1 He) as [_ [(client & t1 & t2 & ->) | Hn]];
      [by destruct (Hne client t1 t2) |].
    rewrite Hnet, Hn. split; [done |]. etrans; [exact Hsub |].
    destruct (dispatch_store e w w1 He)
      as [[-> _] | (_ & [(item & _ & _ & ->) | (client & t1 & t2 & a & -> & _)])].
    + done.
    + apply sublist_filter.
    + by destruct (Hne client t1 t2).
Qed.

Lemma session_without_analysis_witness :
  let w := Samples.with_history [Samples.item "1" "a"; Samples.item "2" "b"]
             Samples.storage_taking_writes in
  ∃ w', dispatch_all [DeleteClicked (Samples.item "1" "a");
                      CardClicked (Samples.item "2" "b")] w = Some w'
        ∧ network w' = [].
Proof.
  cbn zeta. eexists. split; [vm_compute; reflexivity |].
  eapply (session_without_analysis
            [DeleteClicked (Samples.item "1" "a");
             CardClicked (Samples.item "2" "b")]
            (Samples.with_history [Samples.item "1" "a"; Samples.item "2" "b"]
               Samples.storage_taking_writes)).
  - vm_compute. reflexivity.
  - repeat constructor; discriminate.
Defined.

End SessionFacts.

(** * Flows: a card reopened, a file chosen, an analysis awaited *)

Module FlowFacts.
Import App HistoryStore Conditions FileInput Pending.
Import HistoryFacts StoreLaws SessionFacts.

(** The world after a card is clicked. *)
Lemma loadFromHistory_world (item : HistoryItem.t) (w : World) :
  loadFromHistory item w
  = (Returns (),
     {| app := {| activeTab := study; file := None;
                  prompt := HistoryItem.prompt item;
                  result := Some (HistoryItem.result item);
                  loading := loading (app w); error := error (app w);
                  history := history (app w) |};
        localStorage := localStorage w; network := network w;
        console := console w |}).
Proof. reflexivity. Qed.

(** X17: a click on a card shows the result and the prompt of its item under the
    study tab and drops the chosen file; the list and the storage stay.  An
    analysis asked for next sends the prompt of the item alone, without a
    file, and its new item carries no file name; it is turned away when
    the item has no prompt. *)
Theorem reopened_item_is_analysed_without_file
    (item : HistoryItem.t) (client : AnalysisClient) (t1 t2 : Z) (w : World) :
  let w1 := run (loadFromHistory item) w in
  let w2 := run (clickAnalyze client t1 t2) w1 in
  (list w1 = list w ∧ localStorage w1 = localStorage w
   ∧ result (app w1) = Some (HistoryItem.result item)
   ∧ prompt (app w1) = HistoryItem.prompt item
   ∧ file (app w1) = None ∧ activeTab (app w1) = study)
  ∧ (HistoryItem.prompt item ≠ "" →
     network w2 = network w ++ [mkRequest None None (HistoryItem.prompt item)]
     ∧ ∀ a, client None None (HistoryItem.prompt item) = Some a →
            list w2 = newItem t1 t2 a (HistoryItem.prompt item) None :: list w)
  ∧ (HistoryItem.prompt item = "" →
     network w2 = network w ∧ list w2 = list w
     ∧ error (app w2) = Some "Vui lòng nhập nội dung hoặc tải file lên.").
Proof.
  cbn zeta. unfold run at 1 2 3 4 5 6. rewrite loadFromHistory_world.
  cbn [snd]. split; [done |].
  set (w1 := (run (loadFromHistory item) w)).
  assert (Hw1 : w1 = (loadFromHistory item w).2) by done.
  rewrite loadFromHistory_world in Hw1. cbn [snd] in Hw1.
  split.
  - intros Hp.
    assert (Hreq : prompt (app w1) ≠ "" ∨ is_Some (file (app w1)))
      by (left; by rewrite Hw1).
    destruct (client None None (HistoryItem.prompt item)) as [a|] eqn:Hans.
    + assert (Hans' : client (nonempty (UploadedFile.data <$> file (app w1)))
                        (nonempty (UploadedFile.mimeType <$> file (app w1)))
                        (prompt (app w1)) = Some a) by (by rewrite Hw1).
      unfold run. rewrite (analysis_answered client t1 t2 a w1 Hreq Hans').
      cbn [snd]. rewrite Hw1.
      cbn [app localStorage network file prompt history fmap option_fmap option_map].
      destruct (accepts _ _ _); cbn [network list app history]; split; try done;
        by intros a' [= <-].
    + assert (Hans' : client (nonempty (UploadedFile.data <$> file (app w1)))
                        (nonempty (UploadedFile.mimeType <$> file (app w1)))
                        (prompt (app w1)) = None) by (by rewrite Hw1).
      unfold run. rewrite (analysis_failed client t1 t2 w1 Hreq Hans').
      cbn [snd network]. rewrite Hw1. cbn [app network file prompt]. done.
  - intros Hp. unfold run.
    rewrite (analysis_rejected client t1 t2 w1); rewrite Hw1; cbn; done.
Qed.

Lemma reopened_item_is_analysed_without_file_witness :
  let item := created Samples.file_only_call in
  let w := run (append Samples.file_only_call) Samples.fresh in
  let w2 := run (clickAnalyze Samples.answering 7 8) (run (loadFromHistory item) w) in
  network w2 = [mkRequest None None "Phân tích tài liệu"]
  ∧ list w2 = [newItem 7 8 Samples.photosynthesis "Phân tích tài liệu" None; item].
Proof.
  cbn zeta.
  destruct (reopened_item_is_analysed_without_file
              (created Samples.file_only_call) Samples.answering 7 8
              (run (append Samples.file_only_call) Samples.fresh))
    as (_ & Hsend & _).
  destruct Hsend as (Hnet & Hlist); [discriminate |].
  split; [exact Hnet |]. by apply Hlist.
Defined.

(** ** The file input *)

Lemma split_comma_free (s : string) :
  comma_free s = true → split_comma s = [s].
Proof.
  induction s as [|c s IH]; [done |]. cbn [comma_free split_comma].
  intros [Hc Hs]%andb_true_iff. apply negb_true_iff in Hc.
  by rewrite Hc, (IH Hs).
Qed.

Lemma split_comma_header (header rest : string) :
  comma_free header = true →
  split_comma (header +:+ String "," rest) = header :: split_comma rest.
Proof.
  induction header as [|c h IH]; [done |]. cbn [comma_free].
  intros [Hc Hs]%andb_true_iff. apply negb_true_iff in Hc.
  change (String c h +:+ String "," rest) with (String c (h +:+ String "," rest)).
  cbn [split_comma]. by rewrite Hc, (IH Hs).
Qed.

(** The world after the reader of a chosen file has loaded. *)
Lemma chosen_file_world (f : File) (others : Datatypes.list File)
    (header payload : string) (w : World) :
  comma_free header = true → comma_free payload = true →
  ∃ m, handleFileChange (Some (f :: others)) (header +:+ String "," payload)
       = Some m
    ∧ run m w
      = {| app := {| activeTab := activeTab (app w);
                     file := Some {| UploadedFile.data := payload;
                                     UploadedFile.mimeType := type f;
                                     UploadedFile.name := name f |};
                     prompt := prompt (app w); result := None;
                     loading := loading (app w); error := error (app w);
                     history := history (app w) |};
           localStorage := localStorage w; network := network w;
           console := console w |}.
Proof.
  intros Hh Hp. unfold handleFileChange, reader_onload.
  cbn [mbind option_bind head].
  rewrite (split_comma_header _ _ Hh), (split_comma_free _ Hp).
  cbn [lookup list_lookup mbind option_bind]. eexists. split; reflexivity.
Qed.

(** X18: choosing a file keeps, of the data URL the reader gives, the text after
    the comma as the data, with the type and the name of the first chosen
    file, and clears the shown result; the prompt, the error, the list and
    the storage stay.  With no file chosen nothing changes. *)
Theorem chosen_file_is_kept (f : File) (others : Datatypes.list File)
    (header payload : string) (w : World) :
  comma_free header = true → comma_free payload = true →
  (∃ m, handleFileChange (Some (f :: others)) (header +:+ String "," payload)
        = Some m
     ∧ file (app (run m w))
       = Some {| UploadedFile.data := payload; UploadedFile.mimeType := type f;
                 UploadedFile.name := name f |}
     ∧ result (app (run m w)) = None
     ∧ (prompt (app (run m w)), error (app (run m w)), loading (app (run m w)))
       = (prompt (app w), error (app w), loading (app w))
     ∧ list (run m w) = list w
     ∧ localStorage (run m w) = localStorage w
     ∧ network (run m w) = network w)
  ∧ (∀ url, ∃ m, handleFileChange None url = Some m ∧ run m w = w)
  ∧ (∀ url, ∃ m, handleFileChange (Some []) url = Some m ∧ run m w = w).
Proof.
  intros Hh Hp. split; [| split].
  - destruct (chosen_file_world f others header payload w Hh Hp)
      as (m & Hm & Hrun).
    exists m. rewrite Hrun. by split.
  - intros url. eexists. split; [reflexivity |]. by destruct w.
  - intros url. eexists. split; [reflexivity |]. by destruct w.
Qed.

Lemma chosen_file_is_kept_witness :
  ∃ m, handleFileChange (Some [Session.chosen]) Session.data_url = Some m
    ∧ file (app (run m Samples.fresh))
      = Some {| UploadedFile.data := "SGVsbG8=";
                UploadedFile.mimeType := "application/pdf";
                UploadedFile.name := "bai-5.pdf" |}.
Proof.
  destruct (chosen_file_is_kept Session.chosen [] "data:application/pdf;base64"
              "SGVsbG8=" Samples.fresh) as ((m & Hm & Hfile & _) & _);
    [reflexivity | reflexivity |].
  exists m. split; [exact Hm | exact Hfile].
Defined.

(** X19: a file chosen and then analysed: the request goes out whatever the
    prompt is, with the data after the comma and the type of the file, an
    empty one of the two left out; on an answer the new item carries the
    name of the file.  A file with empty data and an empty prompt is sent
    all the same, as a request without data and without instruction. *)
Theorem chosen_file_is_analysed (f : File) (header payload : string)
    (client : AnalysisClient) (t1 t2 : Z) (w : World) :
  comma_free header = true → comma_free payload = true →
  ∃ m, handleFileChange (Some [f]) (header +:+ String "," payload) = Some m
    ∧ let w2 := run (clickAnalyze client t1 t2) (run m w) in
      let d := if truthy payload then Some payload else None in
      let t := if truthy (type f) then Some (type f) else None in
      network w2 = network w ++ [mkRequest d t (prompt (app w))]
      ∧ (∀ a, client d t (prompt (app w)) = Some a →
         list w2 = newItem t1 t2 a (prompt (app w)) (Some (name f)) :: list w)
      ∧ (client d t (prompt (app w)) = None →
         list w2 = list w
         ∧ file (app w2) = Some {| UploadedFile.data := payload;
                                   UploadedFile.mimeType := type f;
                                   UploadedFile.name := name f |}).
Proof.
  intros Hh Hp.
  destruct (chosen_file_world f [] header payload w Hh Hp) as (m & Hm & Hw1).
  exists m. split; [exact Hm |]. cbn zeta.
  set (w1 := run m w) in *.
  assert (Hreq : prompt (app w1) ≠ "" ∨ is_Some (file (app w1)))
    by (right; rewrite Hw1; cbn; eauto).
  assert (Hd : nonempty (UploadedFile.data <$> file (app w1))
               = if truthy payload then Some payload else None)
    by (by rewrite Hw1).
  assert (Ht : nonempty (UploadedFile.mimeType <$> file (app w1))
               = if truthy (type f) then Some (type f) else None)
    by (by rewrite Hw1).
  assert (Hprompt : prompt (app w1) = prompt (app w)) by (by rewrite Hw1).
  assert (Hname : UploadedFile.name <$> file (app w1) = Some (name f))
    by (by rewrite Hw1).
  assert (Hlist : history (app w1) = list w) by (by rewrite Hw1).
  assert (Hnet : network w1 = network w) by (by rewrite Hw1).
  assert (Hfile : file (app w1)
                  = Some {| UploadedFile.data := payload;
                            UploadedFile.mimeType := type f;
                            UploadedFile.name := name f |}) by (by rewrite Hw1).
  clearbody w1. clear Hw1.
  destruct (client (nonempty (UploadedFile.data <$> file (app w1)))
              (nonempty (UploadedFile.mimeType <$> file (app w1)))
              (prompt (app w1))) as [a|] eqn:Hans.
  - unfold run. rewrite (analysis_answered client t1 t2 a w1 Hreq Hans).
    rewrite Hd, Ht, Hprompt in Hans. rewrite Hans.
    cbn [snd]. rewrite Hd, Ht, Hprompt, Hname, Hlist, Hnet.
    destruct (accepts _ _ _); cbn [network list app history];
      (split; [done |]); (split; [by intros a' [= <-] | done]).
  - unfold run. rewrite (analysis_failed client t1 t2 w1 Hreq Hans).
    rewrite Hd, Ht, Hprompt in Hans. rewrite Hans.
    cbn [snd network list app history file]. rewrite Hd, Ht, Hprompt, Hnet.
    split; [done |]. split; [done |]. intros _. by split.
Qed.

Lemma chosen_file_is_analysed_witness :
  ∃ m, handleFileChange (Some [Session.chosen]) Session.data_url = Some m
    ∧ network (run (clickAnalyze Samples.answering 7 8) (run m Samples.fresh))
      = [mkRequest (Some "SGVsbG8=") (Some "application/pdf") ""]
    ∧ list (run (clickAnalyze Samples.answering 7 8) (run m Samples.fresh))
      = [newItem 7 8 Samples.photosynthesis "" (Some "bai-5.pdf")].
Proof.
  destruct (chosen_file_is_analysed Session.chosen "data:application/pdf;base64"
              "SGVsbG8=" Samples.answering 7 8 Samples.fresh)
    as (m & Hm & Hnet & Hok & _); [reflexivity | reflexivity |].
  exists m. split; [exact Hm |]. split; [exact Hnet |]. by apply Hok.
Defined.

(** ** An analysis awaited *)

(** Unfolds the two steps of an analysis down to the world they compute. *)
Ltac unfold_steps :=
  unfold handleAnalysis_issue, handleAnalysis_resume, request_sent, settled in *;
  unfold_handlers.

(** [handleAnalysis] is its first step followed, when a request went out,
    by its second step on the answer of the service. *)
Lemma handleAnalysis_two_steps (r : State) (client : AnalysisClient)
    (t1 t2 : Z) (w : World) :
  handleAnalysis r client t1 t2 w
  = (pending ← handleAnalysis_issue r;
     if pending : bool
     then handleAnalysis_resume r
            (client (nonempty (UploadedFile.data <$> file r))
                    (nonempty (UploadedFile.mimeType <$> file r)) (prompt r))
            t1 t2
     else mret ()) w.
Proof.
  unfold_steps.
  destruct (negb (truthy (prompt r)) && negb (bool_decide (is_Some (file r))));
    [done |].
  cbn [fst snd app localStorage network console history error loading
       result file prompt activeTab items accepts].
  destruct (client _ _ _); [| done].
  cbn [fst snd app localStorage network console history error loading
       result file prompt activeTab items accepts].
  by destruct (accepts _ _ _).
Qed.

(** X20: while the answer of the service is awaited the loading flag is raised,
    the last error is cleared and one request is out, the list and the
    storage being as before; whatever happens meanwhile, and whether the
    answer comes or not, the second step ends with the flag lowered and
    lets no exception out. *)
Theorem loading_brackets_the_request (r : State) (w : World) :
  prompt r ≠ "" ∨ is_Some (file r) →
  let w1 := run (handleAnalysis_issue r) w in
  outcome (handleAnalysis_issue r) w = Returns true
  ∧ loading (app w1) = true ∧ error (app w1) = None
  ∧ network w1
    = network w ++ [mkRequest (nonempty (UploadedFile.data <$> file r))
                              (nonempty (UploadedFile.mimeType <$> file r))
                              (prompt r)]
  ∧ list w1 = list w ∧ localStorage w1 = localStorage w
  ∧ ∀ answer t1 t2 w2,
      outcome (handleAnalysis_resume r answer t1 t2) w2 = Returns ()
      ∧ loading (app (run (handleAnalysis_resume r answer t1 t2) w2)) = false
      ∧ network (run (handleAnalysis_resume r answer t1 t2) w2) = network w2.
Proof.
  cbn zeta. intros Hreq. apply request_guard in Hreq.
  unfold_steps. rewrite Hreq.
  cbn [fst snd app localStorage network console history error loading
       result file prompt activeTab items accepts].
  repeat (split; [done |]).
  intros [a|] t1 t2 w2;
    cbn [fst snd app localStorage network console history error loading
         result file prompt activeTab items accepts]; [| done].
  by destruct (accepts _ _ _).
Qed.

Lemma loading_brackets_the_request_witness :
  let r := app (Samples.with_input "Giải thích quang hợp" None
                  Samples.storage_taking_writes) in
  let w1 := run (handleAnalysis_issue r)
              (Samples.with_input "Giải thích quang hợp" None
                 Samples.storage_taking_writes) in
  loading (app w1) = true
  ∧ loading (app (run (handleAnalysis_resume r None 7 8) w1)) = false.
Proof.
  cbn zeta.
  destruct (loading_brackets_the_request
              (app (Samples.with_input "Giải thích quang hợp" None
                      Samples.storage_taking_writes))
              (Samples.with_input "Giải thích quang hợp" None
                 Samples.storage_taking_writes))
    as (_ & Hup & _ & _ & _ & _ & Hdown); [left; discriminate |].
  split; [exact Hup |]. apply Hdown.
Defined.

(** X21: the second step of an analysis works on the list of the render that
    was clicked.  When items are removed while the answer is awaited and
    the answer comes, the list becomes the new item before the whole list
    of the click: the removed items are back, in memory and, when the
    browser takes the write, in the storage.  When the request fails the
    removal stays. *)
Theorem removal_while_pending_is_undone
    (i : string) (t1 t2 : Z) (w : World) :
  let r := app w in
  let w1 := run (handleAnalysis_issue r) w in
  let w2 := run (remove i) w1 in
  prompt r ≠ "" ∨ is_Some (file r) →
  list w2 = filter (λ item, HistoryItem.id item ≠ i) (list w)
  ∧ (∀ a,
     let w3 := run (handleAnalysis_resume r (Some a) t1 t2) w2 in
     let updated := newItem t1 t2 a (prompt r) (UploadedFile.name <$> file r)
                    :: list w in
     list w3 = updated
     ∧ (∀ item, item ∈ list w → item ∈ list w3)
     ∧ (accepts (localStorage w) HISTORY_KEY (JSON_stringify updated) = true →
        items (localStorage w3) !! HISTORY_KEY = Some (JSON_stringify updated)))
  ∧ list (run (handleAnalysis_resume r None t1 t2) w2) = list w2.
Proof.
  cbn zeta. intros Hreq. apply request_guard in Hreq.
  set (w1 := run (handleAnalysis_issue (app w)) w).
  assert (Hw1 : list w1 = list w ∧ accepts (localStorage w1) = accepts (localStorage w)).
  { subst w1. unfold_steps. by rewrite Hreq. }
  destruct Hw1 as [Hl1 Ha1].
  assert (Ha2 : accepts (localStorage (run (remove i) w1)) = accepts (localStorage w))
    by (by rewrite remove_written, written_accepts).
  split; [by rewrite remove_list, Hl1 |]. split.
  - intros a. generalize dependent (run (remove i) w1). intros w2 Ha2.
    unfold_steps. rewrite Ha2.
    destruct (accepts (localStorage w) _ _) eqn:Hacc;
      cbn [fst snd app localStorage network console history error loading
           result file prompt activeTab items accepts].
    + split; [done |]. split; [by intros item Hin; right |].
      intros _. apply lookup_insert_eq.
    + split; [done |]. split; [by intros item Hin; right |]. done.
  - generalize dependent (run (remove i) w1). intros w2 _. by unfold_steps.
Qed.

Lemma removal_while_pending_is_undone_witness :
  let w := {| app := {| activeTab := study; file := None;
                        prompt := "Giải thích hô hấp"; result := None;
                        loading := false; error := None;
                        history := [Samples.item "1" "a"] |};
              localStorage := Samples.storage_taking_writes;
              network := []; console := [] |} in
  let w2 := run (remove "1") (run (handleAnalysis_issue (app w)) w) in
  list w2 = []
  ∧ list (run (handleAnalysis_resume (app w) (Some Samples.photosynthesis) 7 8) w2)
    = [newItem 7 8 Samples.photosynthesis "Giải thích hô hấp" None;
       Samples.item "1" "a"].
Proof.
  cbn zeta.
  destruct (removal_while_pending_is_undone "1" 7 8
              {| app := {| activeTab := study; file := None;
                           prompt := "Giải thích hô hấp"; result := None;
                           loading := false; error := None;
                           history := [Samples.item "1" "a"] |};
                 localStorage := Samples.storage_taking_writes;
                 network := []; console := [] |})
    as (Hgone & Hback & _); [left; discriminate |].
  split; [exact Hgone |].
  destruct (Hback Samples.photosynthesis) as (Hlist & _). exact Hlist.
Defined.

End FlowFacts.
